(** * The bridge service: a read-only HTTP gateway over two stores

  Shallow embedding of [src/bridge/main.py].  The program is a Flask
  application with seven routes.  Five of them are protected by a shared
  API key and read from one of two backends: a PostgreSQL database
  (Chatwoot) through psycopg2, or a MongoDB database (LibreChat) through
  pymongo.

  The view functions are embedded in a state-and-exception monad over a
  [World] that holds the two servers and a log of every interaction of
  the program with a driver.  The drivers, the servers and the parts of
  Flask and Werkzeug that the views call are not part of the program;
  they are modelled here from their documented behaviour, each with a
  comment that says what is covered.

  Conventions.  A Python [int] is a [Z].  A Python [str] is a [string]
  whose characters stand for code points below 256.  A point in time (a
  PostgreSQL timestamp, a BSON date) is the number of milliseconds since
  the Unix epoch, a [Z]. *)

From Stdlib Require Import ZArith List String Ascii Bool Lia.
From Stdlib Require Import Permutation Sorted.
From Stdlib Require Import DecimalString DecimalPos DecimalZ.
Import ListNotations.

Set Warnings "-register-all".

Local Open Scope string_scope.
Local Open Scope Z_scope.

(** ** Python values *)

Module Py.

(** The values the views hand to [jsonify]: what psycopg2 returns for
    the columns the program selects, and what the views build from it.
    [jsonify] renders every one of them. *)
Inductive value :=
| VNone
| VInt (z : Z)
| VStr (s : string)
| VDatetime (t : Z)
| VList (l : list value)
| VDict (d : list (string * value)).

(** [str(z)] for an [int]. *)
Definition str_of_int (z : Z) : string :=
  NilZero.string_of_int (Z.to_int z).

Definition is_digit (c : ascii) : bool :=
  let n := nat_of_ascii c in (48 <=? n)%nat && (n <=? 57)%nat.

Definition digit_val (c : ascii) : Z := Z.of_nat (nat_of_ascii c) - 48.

(** Whitespace as [str.strip] and [int] see it, for code points below
    256. *)
Definition is_space (c : ascii) : bool :=
  let n := nat_of_ascii c in
  ((9 <=? n)%nat && (n <=? 13)%nat) || ((28 <=? n)%nat && (n <=? 32)%nat)
  || (n =? 133)%nat || (n =? 160)%nat.

Fixpoint lstrip (s : string) : string :=
  match s with
  | String c s' => if is_space c then lstrip s' else s
  | EmptyString => EmptyString
  end.

Fixpoint rstrip (s : string) : string :=
  match s with
  | EmptyString => EmptyString
  | String c s' =>
      match rstrip s' with
      | EmptyString => if is_space c then EmptyString else String c EmptyString
      | r => String c r
      end
  end.

Definition strip (s : string) : string := rstrip (lstrip s).

(** Decimal digits, where single underscores may separate two digits.
    Returns the value and the number of digits read. *)
Fixpoint digits_value (s : string) (acc : Z) (count : nat) : option (Z * nat) :=
  match s with
  | EmptyString => None
  | String c rest =>
      if is_digit c then
        let acc' := 10 * acc + digit_val c in
        match rest with
        | EmptyString => Some (acc', S count)
        | String "_"%char rest' => digits_value rest' acc' (S count)
        | _ => digits_value rest acc' (S count)
        end
      else None
  end.

(** The interpreter's limit on the length of a decimal literal that
    [int] converts ([sys.int_info.default_max_str_digits]). *)
Definition max_str_digits : nat := 4300.

(** [int(s)] in base 10: [None] stands for [ValueError]. *)
Definition int_of_str (s : string) : option Z :=
  let body := strip s in
  let '(negative, digits) :=
    match body with
    | String "-"%char r => (true, r)
    | String "+"%char r => (false, r)
    | _ => (false, body)
    end in
  match digits_value digits 0 0 with
  | Some (v, n) =>
      if (n <=? max_str_digits)%nat
      then Some (if negative then - v else v)
      else None
  | None => None
  end.

(** Truth value of a [str]. *)
Definition truthy (s : string) : bool :=
  match s with EmptyString => false | _ => true end.

End Py.

(** ** Werkzeug: headers, query arguments, URL converters *)

Module Werkzeug.

Definition lower_char (c : ascii) : ascii :=
  let n := nat_of_ascii c in
  if (65 <=? n)%nat && (n <=? 90)%nat then ascii_of_nat (n + 32) else c.

Fixpoint lower (s : string) : string :=
  match s with
  | EmptyString => EmptyString
  | String c s' => String (lower_char c) (lower s')
  end.

(** [Headers.get(name)]: the value of the first header whose name is
    [name], compared without regard to case; [None] when there is
    none. *)
Fixpoint headers_get (headers : list (string * string)) (name : string)
  : option string :=
  match headers with
  | [] => None
  | (k, v) :: rest =>
      if String.eqb (lower k) (lower name) then Some v
      else headers_get rest name
  end.

(** The first value of [key] in a [MultiDict]. *)
Fixpoint multidict_first (args : list (string * string)) (key : string)
  : option string :=
  match args with
  | [] => None
  | (k, v) :: rest =>
      if String.eqb k key then Some v else multidict_first rest key
  end.

(** [MultiDict.get(key, default, type=int)]: the default when the key
    is missing, and also when the conversion raises [ValueError]. *)
Definition args_get_int (args : list (string * string)) (key : string)
           (default : Z) : Z :=
  match multidict_first args key with
  | None => default
  | Some rv =>
      match Py.int_of_str rv with
      | Some z => z
      | None => default
      end
  end.


Fixpoint all_chars (p : ascii -> bool) (s : string) : bool :=
  match s with
  | EmptyString => true
  | String c s' => p c && all_chars p s'
  end.

(** The [int] converter of a URL rule: one or more digits. *)
Definition int_converter (seg : string) : option Z :=
  match seg with
  | EmptyString => None
  | _ => if all_chars Py.is_digit seg then Py.int_of_str seg else None
  end.

(** The default converter of a URL rule: one or more characters, none
    of them a slash. *)
Definition string_converter (seg : string) : option string :=
  match seg with
  | EmptyString => None
  | _ =>
      if all_chars (fun c => negb (Ascii.eqb c "/"%char)) seg
      then Some seg else None
  end.

End Werkzeug.

(** ** BSON documents and [bson.json_util.dumps] *)

Module Bson.

(** The BSON values that occur in the collections the program reads.
    An [ObjectId] is held as its 24 hexadecimal digits, a date as
    milliseconds since the epoch, within the range of a Python
    [datetime]. *)
Inductive value :=
| Null
| Bool (b : bool)
| Int (z : Z)
| Str (s : string)
| ObjectId (hex : string)
| Date (ms : Z)
| Array (l : list value)
| Doc (d : list (string * value)).

Definition document := list (string * value).

Fixpoint lookup (d : document) (key : string) : option value :=
  match d with
  | [] => None
  | (k, v) :: rest => if String.eqb k key then Some v else lookup rest key
  end.

End Bson.

Module Json.

(** JSON values, as [json.dumps] receives them. *)
Inductive value :=
| Null
| Bool (b : bool)
| Int (z : Z)
| Str (s : string)
| Array (l : list value)
| Object (d : list (string * value)).

Definition hex_digit (n : nat) : ascii :=
  if (n <? 10)%nat then ascii_of_nat (48 + n) else ascii_of_nat (87 + n).

(** The escape of one character under [ensure_ascii]. *)
Definition escape_char (c : ascii) : string :=
  let n := nat_of_ascii c in
  if (n =? 34)%nat then String "\"%char (String c EmptyString)
  else if (n =? 92)%nat then "\\"
  else if (n =? 10)%nat then "\n"
  else if (n =? 13)%nat then "\r"
  else if (n =? 9)%nat then "\t"
  else if (n =? 12)%nat then "\f"
  else if (n =? 8)%nat then "\b"
  else if (32 <=? n)%nat && (n <=? 126)%nat then String c EmptyString
  else "\u00" ++ String (hex_digit (n / 16)) (String (hex_digit (n mod 16)) EmptyString).

Fixpoint escape (s : string) : string :=
  match s with
  | EmptyString => EmptyString
  | String c s' => escape_char c ++ escape s'
  end.

Definition quote : string := String (ascii_of_nat 34) EmptyString.

Definition encode_str (s : string) : string := quote ++ escape s ++ quote.

Fixpoint join (sep : string) (l : list string) : string :=
  match l with
  | [] => EmptyString
  | [x] => x
  | x :: rest => x ++ sep ++ join sep rest
  end.

(** [json.dumps] with its default separators. *)
Fixpoint dumps (j : value) : string :=
  match j with
  | Null => "null"
  | Bool true => "true"
  | Bool false => "false"
  | Int z => Py.str_of_int z
  | Str s => encode_str s
  | Array l => "[" ++ join ", " (map dumps l) ++ "]"
  | Object d =>
      "{" ++ join ", " (map (fun kv => let '(k, v) := kv in
                                       encode_str k ++ ": " ++ dumps v) d)
          ++ "}"
  end.

End Json.

Module JsonUtil.

(** Digits of [n], padded with zeros on the left to [width]. *)
Definition zero_pad (width : nat) (n : Z) : string :=
  let s := Py.str_of_int n in
  let fix zeros (k : nat) : string :=
    match k with O => EmptyString | S k' => String "0"%char (zeros k') end in
  zeros (width - String.length s)%nat ++ s.

(** The civil date of a day number counted from 1970-01-01. *)
Definition civil_from_days (days : Z) : Z * Z * Z :=
  let z := days + 719468 in
  let era := z / 146097 in
  let doe := z - era * 146097 in
  let yoe := (doe - doe / 1460 + doe / 36524 - doe / 146096) / 365 in
  let doy := doe - (365 * yoe + yoe / 4 - yoe / 100) in
  let mp := (5 * doy + 2) / 153 in
  let d := doy - (153 * mp + 2) / 5 + 1 in
  let m := if mp <? 10 then mp + 3 else mp - 9 in
  let y := yoe + era * 400 + (if m <=? 2 then 1 else 0) in
  (y, m, d).

(** The ISO-8601 text of a date at or after the epoch, in UTC, with the
    milliseconds shown only when they are not zero. *)
Definition isoformat (ms : Z) : string :=
  let secs := ms / 1000 in
  let millis := ms mod 1000 in
  let '(y, m, d) := civil_from_days (secs / 86400) in
  let sod := secs mod 86400 in
  zero_pad 4 y ++ "-" ++ zero_pad 2 m ++ "-" ++ zero_pad 2 d ++ "T"
  ++ zero_pad 2 (sod / 3600) ++ ":" ++ zero_pad 2 (sod mod 3600 / 60) ++ ":"
  ++ zero_pad 2 (sod mod 60)
  ++ (if millis =? 0 then "" else "." ++ zero_pad 3 millis) ++ "Z".

(** The conversion that [dumps] applies before it serialises, in the
    relaxed mode of its default options: an identifier becomes an
    object with the one key [$oid], a date an object with the one key
    [$date]; a date before the epoch is given by its milliseconds. *)
Fixpoint json_convert (b : Bson.value) : Json.value :=
  match b with
  | Bson.Null => Json.Null
  | Bson.Bool x => Json.Bool x
  | Bson.Int z => Json.Int z
  | Bson.Str s => Json.Str s
  | Bson.ObjectId hex => Json.Object [("$oid", Json.Str hex)]
  | Bson.Date ms =>
      if 0 <=? ms
      then Json.Object [("$date", Json.Str (isoformat ms))]
      else Json.Object
             [("$date", Json.Object [("$numberLong", Json.Str (Py.str_of_int ms))])]
  | Bson.Array l => Json.Array (map json_convert l)
  | Bson.Doc d =>
      Json.Object (map (fun kv => let '(k, v) := kv in (k, json_convert v)) d)
  end.

(** [dumps(docs)] on the list of documents a cursor returned. *)
Definition dumps (docs : list Bson.document) : string :=
  Json.dumps (Json.Array (map (fun d => json_convert (Bson.Doc d)) docs)).

End JsonUtil.

(** ** Exceptions *)

(** A raised exception: its class and the text [str(e)] gives. *)
Record exn := Exn { exn_class : string; exn_text : string }.

Definition str (e : exn) : string := exn_text e.

Inductive outcome (A : Type) :=
| Return (a : A)
| Raise (e : exn).

Arguments Return {A} a.
Arguments Raise {A} e.

(** ** Ordering rows and documents *)

Section OrderBy.

Context {A : Type}.

(** [before a b] holds when [a] may stand before [b] in the output. *)
Variable before : A -> A -> bool.

Fixpoint insert_by (x : A) (l : list A) : list A :=
  match l with
  | [] => [x]
  | y :: l' => if before x y then x :: l else y :: insert_by x l'
  end.

(** A stable insertion sort: elements that [before] does not tell apart
    keep the order they had. *)
Fixpoint order_by (l : list A) : list A :=
  match l with
  | [] => []
  | x :: l' => insert_by x (order_by l')
  end.

End OrderBy.

(** The largest value of a signed 64-bit integer. *)
Definition INT64_MAX : Z := 9223372036854775807.

(** [str.split()]: the maximal runs of characters that are not
    whitespace. *)
Fixpoint split_ws (s : string) (word : string) : list string :=
  let flush rest := match word with EmptyString => rest | _ => word :: rest end in
  match s with
  | EmptyString => flush []
  | String c s' =>
      if Py.is_space c then flush (split_ws s' EmptyString)
      else split_ws s' (word ++ String c EmptyString)
  end.

(** ** The relational server *)

Module Pg.

(** A row of table [conversations].  The primary key and the creation
    time are typed; the columns the program only passes on are held as
    the Python values psycopg2 returns for them.  [c_rest] stands for
    the columns no statement of the program names. *)
Record conversation := {
  c_id : Z;
  c_account_id : Py.value;
  c_inbox_id : Py.value;
  c_status : Py.value;
  c_created_at : Z;
  c_updated_at : Py.value;
  c_rest : list (string * Py.value)
}.

(** A row of table [messages]. *)
Record message := {
  m_id : Z;
  m_conversation_id : Z;
  m_sender_type : Py.value;
  m_content : Py.value;
  m_created_at : Z;
  m_message_type : Py.value;
  m_rest : list (string * Py.value)
}.

(** The server at the address the program is configured with.
    [connect_error] is the text of the error every connection attempt
    ends in, when there is one; [query_error] the text of the error
    every statement ends in. *)
Record server := {
  connect_error : option string;
  query_error : option string;
  conversations : list conversation;
  messages : list message
}.

(** What a cursor holds after [execute]: the names of the columns
    ([desc[0]] for each entry of [description]) and the rows. *)
Record result_set := {
  description : list string;
  rows : list (list Py.value)
}.

Definition fetchall (rs : result_set) : list (list Py.value) := rows rs.

(** The statements the server model understands. *)
Inductive statement :=
| SelectConversations
| SelectMessages.

Definition select_conversations_words : list string :=
  ["SELECT"; "id,"; "account_id,"; "inbox_id,"; "status,"; "created_at,";
   "updated_at"; "FROM"; "conversations"; "ORDER"; "BY"; "created_at";
   "DESC"; "LIMIT"; "%s"; "OFFSET"; "%s"].

Definition select_messages_words : list string :=
  ["SELECT"; "id,"; "conversation_id,"; "sender_type,"; "content,";
   "created_at,"; "message_type"; "FROM"; "messages"; "WHERE";
   "conversation_id"; "="; "%s"; "ORDER"; "BY"; "created_at"; "DESC";
   "LIMIT"; "%s"].

(** A statement is recognised by its words, whatever the white space
    between them. *)
Definition parse (sql : string) : option statement :=
  let words := split_ws sql EmptyString in
  if list_eq_dec string_dec words select_conversations_words
  then Some SelectConversations
  else if list_eq_dec string_dec words select_messages_words
  then Some SelectMessages
  else None.

Definition conversation_tuple (c : conversation) : list Py.value :=
  [Py.VInt (c_id c); c_account_id c; c_inbox_id c; c_status c;
   Py.VDatetime (c_created_at c); c_updated_at c].

Definition message_tuple (m : message) : list Py.value :=
  [Py.VInt (m_id m); Py.VInt (m_conversation_id m); m_sender_type m;
   m_content m; Py.VDatetime (m_created_at m); m_message_type m].

(** [ORDER BY created_at DESC]. *)
Definition newest_conversations_first : list conversation -> list conversation :=
  order_by (fun a b => c_created_at b <=? c_created_at a).

Definition newest_messages_first : list message -> list message :=
  order_by (fun a b => m_created_at b <=? m_created_at a).

Definition data_error (text : string) : exn :=
  Exn "psycopg2.errors.DataError" text.

(** A row count of a [LIMIT] or [OFFSET] clause is a [bigint] that is
    not negative; the server refuses any other. *)
Definition check_count (clause : string) (n : Z) : option exn :=
  if n <? 0 then Some (data_error (clause ++ " must not be negative"))
  else if INT64_MAX <? n then Some (data_error "bigint out of range")
  else None.

(** The result of a statement with its parameters bound. *)
Definition run (s : server) (st : statement) (params : list Py.value)
  : outcome result_set :=
  match query_error s with
  | Some text => Raise (Exn "psycopg2.Error" text)
  | None =>
      match st, params with
      | SelectConversations, [Py.VInt limit; Py.VInt offset] =>
          match check_count "LIMIT" limit, check_count "OFFSET" offset with
          | Some e, _ => Raise e
          | None, Some e => Raise e
          | None, None =>
              Return {|
                description := ["id"; "account_id"; "inbox_id"; "status";
                                "created_at"; "updated_at"];
                rows := map conversation_tuple
                          (firstn (Z.to_nat limit)
                             (skipn (Z.to_nat offset)
                                (newest_conversations_first (conversations s))))
              |}
          end
      | SelectMessages, [Py.VInt conversation_id; Py.VInt limit] =>
          match check_count "LIMIT" limit with
          | Some e => Raise e
          | None =>
              Return {|
                description := ["id"; "conversation_id"; "sender_type";
                                "content"; "created_at"; "message_type"];
                rows := map message_tuple
                          (firstn (Z.to_nat limit)
                             (newest_messages_first
                                (filter (fun m => m_conversation_id m =? conversation_id)
                                        (messages s))))
              |}
          end
      | _, _ =>
          Raise (Exn "psycopg2.ProgrammingError"
                     "the parameters do not fit the statement")
      end
  end.

End Pg.

(** ** The document server and the pymongo cursor *)

Module Mongo.

(** The server at the address the program is configured with.
    [client_error] is the text of the error the construction of a
    client ends in, when there is one (a URI the driver refuses);
    [command_error] the text of the error every command ends in (no
    server reachable, authentication refused).  [collection name] is
    the content of a collection of the configured database. *)
Record server := {
  client_error : option string;
  command_error : option string;
  collection : string -> list Bson.document
}.

(** A cursor before it is iterated: what [find] and the calls chained
    on it have set. *)
Record cursor := {
  c_collection : string;
  c_filter : Bson.document;
  c_projection : list (string * Z);
  c_sort : option (string * Z);
  c_skip : Z;
  c_limit : Z
}.

Definition find (coll : string) (filter : Bson.document)
           (projection : list (string * Z)) : cursor :=
  {| c_collection := coll; c_filter := filter; c_projection := projection;
     c_sort := None; c_skip := 0; c_limit := 0 |}.

Definition sort (key : string) (direction : Z) (c : cursor) : cursor :=
  {| c_collection := c_collection c; c_filter := c_filter c;
     c_projection := c_projection c; c_sort := Some (key, direction);
     c_skip := c_skip c; c_limit := c_limit c |}.

(** [skip] refuses a negative count before anything is sent. *)
Definition skip (n : Z) (c : cursor) : outcome cursor :=
  if n <? 0 then Raise (Exn "ValueError" "skip must be >= 0")
  else Return {| c_collection := c_collection c; c_filter := c_filter c;
                 c_projection := c_projection c; c_sort := c_sort c;
                 c_skip := n; c_limit := c_limit c |}.

Definition limit (n : Z) (c : cursor) : cursor :=
  {| c_collection := c_collection c; c_filter := c_filter c;
     c_projection := c_projection c; c_sort := c_sort c;
     c_skip := c_skip c; c_limit := n |}.

Fixpoint value_eqb (a b : Bson.value) : bool :=
  match a, b with
  | Bson.Null, Bson.Null => true
  | Bson.Bool x, Bson.Bool y => Bool.eqb x y
  | Bson.Int x, Bson.Int y => x =? y
  | Bson.Str x, Bson.Str y => String.eqb x y
  | Bson.ObjectId x, Bson.ObjectId y => String.eqb x y
  | Bson.Date x, Bson.Date y => x =? y
  | Bson.Array l1, Bson.Array l2 =>
      (fix go (l1 l2 : list Bson.value) : bool :=
         match l1, l2 with
         | [], [] => true
         | x :: xs, y :: ys => value_eqb x y && go xs ys
         | _, _ => false
         end) l1 l2
  | Bson.Doc d1, Bson.Doc d2 =>
      (fix go (d1 d2 : list (string * Bson.value)) : bool :=
         match d1, d2 with
         | [], [] => true
         | (k1, v1) :: r1, (k2, v2) :: r2 =>
             String.eqb k1 k2 && value_eqb v1 v2 && go r1 r2
         | _, _ => false
         end) d1 d2
  | _, _ => false
  end.

(** A field matches a value of the filter when it holds that value, or
    an array with that value among its elements. *)
Definition field_matches (field : option Bson.value) (v : Bson.value) : bool :=
  match field with
  | None => false
  | Some fv =>
      value_eqb fv v
      || match fv with
         | Bson.Array l => existsb (fun x => value_eqb x v) l
         | _ => false
         end
  end.

Definition matches (filter : Bson.document) (d : Bson.document) : bool :=
  forallb (fun kv => field_matches (Bson.lookup d (fst kv)) (snd kv)) filter.

(** The date a document holds under [key]; [None] when it holds no
    date there. *)
Definition date_of (key : string) (d : Bson.document) : option Z :=
  match Bson.lookup d key with
  | Some (Bson.Date ms) => Some ms
  | _ => None
  end.

(** The order of sort keys: no date is below every date. *)
Definition key_leb (a b : option Z) : bool :=
  match a, b with
  | None, _ => true
  | Some _, None => false
  | Some x, Some y => x <=? y
  end.

(** Documents are sorted by the date they hold under the sort key; a
    document without a date there is sorted as null. *)
Definition sorted_by (spec : option (string * Z)) (docs : list Bson.document)
  : list Bson.document :=
  match spec with
  | None => docs
  | Some (key, direction) =>
      if direction <? 0
      then order_by (fun a b => key_leb (date_of key b) (date_of key a)) docs
      else order_by (fun a b => key_leb (date_of key a) (date_of key b)) docs
  end.

(** An inclusion projection keeps the fields it names, in the order the
    document has them. *)
Definition included (projection : list (string * Z)) (key : string) : bool :=
  existsb (fun kf => String.eqb (fst kf) key && negb (snd kf =? 0)) projection.

Definition project (projection : list (string * Z)) (d : Bson.document)
  : Bson.document :=
  filter (fun kv => included projection (fst kv)) d.

(** A limit of 0 is no limit; a negative limit is the limit of its
    absolute value. *)
Definition limited (n : Z) (docs : list Bson.document) : list Bson.document :=
  if n =? 0 then docs else firstn (Z.to_nat (Z.abs n)) docs.

(** [list(cursor)]: the find command and its result. *)
Definition run (s : server) (c : cursor) : outcome (list Bson.document) :=
  match command_error s with
  | Some text => Raise (Exn "pymongo.errors.PyMongoError" text)
  | None =>
      if (INT64_MAX <? c_skip c) || (INT64_MAX <? Z.abs (c_limit c))
      then Raise (Exn "OverflowError" "MongoDB can only handle up to 8-byte ints")
      else
        Return
          (map (project (c_projection c))
               (limited (c_limit c)
                  (skipn (Z.to_nat (c_skip c))
                     (sorted_by (c_sort c)
                        (filter (matches (c_filter c))
                                (collection s (c_collection c)))))))
  end.

End Mongo.

(** ** Configuration *)

Record postgres_config := {
  pg_host : string;
  pg_port : string;
  pg_database : string;
  pg_user : string;
  pg_password : string
}.

Record mongo_config := {
  mongo_host : string;
  mongo_port : Z;
  mongo_database : string;
  mongo_username : string;
  mongo_password : string
}.

Record config := {
  POSTGRES_CONFIG : postgres_config;
  MONGO_CONFIG : mongo_config;
  API_KEY : string
}.

(** The configuration of a process started with none of the variables
    set. *)
Definition default_config : config := {|
  POSTGRES_CONFIG := {| pg_host := "postgres"; pg_port := "5432";
                        pg_database := "chatwoot"; pg_user := "chatwoot";
                        pg_password := "chatwoot" |};
  MONGO_CONFIG := {| mongo_host := "mongo"; mongo_port := 27017;
                     mongo_database := "LibreChat"; mongo_username := "";
                     mongo_password := "" |};
  API_KEY := "deepnote-api-key-change-me"
|}.

(** ** The world, the log and the monad of the views *)

(** What the program does to a driver.  A connection or a client is
    named by a number that is fresh when it is made. *)
Inductive event :=
| PgConnectFailed (dsn : postgres_config)
| PgConnect (conn : nat) (dsn : postgres_config)
| PgCursor (conn : nat)
| PgExecute (conn : nat) (sql : string) (params : list Py.value)
| PgCursorClose (conn : nat)
| PgClose (conn : nat)
| MongoClientFailed (uri : string)
| MongoClient (client : nat) (uri : string)
| MongoFind (client : nat) (database : string) (query : Mongo.cursor)
| MongoClose (client : nat).

Record World := {
  pg : Pg.server;
  mongo : Mongo.server;
  log : list event
}.

Definition M (A : Type) : Type := World -> outcome A * World.

Definition ret {A : Type} (a : A) : M A := fun w => (Return a, w).

Definition raise {A : Type} (e : exn) : M A := fun w => (Raise e, w).

Definition bind {A B : Type} (m : M A) (k : A -> M B) : M B :=
  fun w =>
    match m w with
    | (Return a, w') => k a w'
    | (Raise e, w') => (Raise e, w')
    end.

(** [try: m except Exception as e: handler e]. *)
Definition try_except {A : Type} (m : M A) (handler : exn -> M A) : M A :=
  fun w =>
    match m w with
    | (Return a, w') => (Return a, w')
    | (Raise e, w') => handler e w'
    end.

Declare Scope py_scope.
Delimit Scope py_scope with py.

Notation "x <- m ;; k" := (bind m (fun x => k))
  (at level 100, m at next level, right associativity) : py_scope.
Notation "m ;; k" := (bind m (fun _ => k))
  (at level 100, right associativity) : py_scope.

Local Open Scope py_scope.

(** The world after more events: the servers are as they were. *)
Definition extend (w : World) (events : list event) : World :=
  {| pg := pg w; mongo := mongo w; log := (log w ++ events)%list |}.

Definition emit (e : event) : M unit := fun w => (Return tt, extend w [e]).

(** The outcome of a computation of a driver that touches no state. *)
Definition lift {A : Type} (o : outcome A) : M A := fun w => (o, w).

(** The number the next connection or client gets. *)
Definition fresh : M nat := fun w => (Return (List.length (log w)), w).

(** *** psycopg2 *)

Definition psycopg2_connect (dsn : postgres_config) : M nat :=
  fun w =>
    match Pg.connect_error (pg w) with
    | Some text =>
        (emit (PgConnectFailed dsn) ;;
         raise (Exn "psycopg2.OperationalError" text)) w
    | None =>
        (conn <- fresh ;; emit (PgConnect conn dsn) ;; ret conn) w
    end.

Definition conn_cursor (conn : nat) : M nat :=
  emit (PgCursor conn) ;; ret conn.

(** [cur.execute(sql, params)]: the statement and its parameters reach
    the driver apart. *)
Definition cur_execute (cur : nat) (sql : string) (params : list Py.value)
  : M Pg.result_set :=
  emit (PgExecute cur sql params) ;;
  fun w =>
    match Pg.parse sql with
    | Some st => lift (Pg.run (pg w) st params) w
    | None => raise (Exn "psycopg2.errors.SyntaxError" "syntax error") w
    end.

Definition cur_close (cur : nat) : M unit := emit (PgCursorClose cur).

Definition conn_close (conn : nat) : M unit := emit (PgClose conn).

(** *** pymongo *)

Definition mongo_client_new (uri : string) : M nat :=
  fun w =>
    match Mongo.client_error (mongo w) with
    | Some text =>
        (emit (MongoClientFailed uri) ;;
         raise (Exn "pymongo.errors.PyMongoError" text)) w
    | None =>
        (client <- fresh ;; emit (MongoClient client uri) ;; ret client) w
    end.

(** [list(cursor)] on a cursor of database [database] of [client]. *)
Definition cursor_list (client : nat) (database : string) (c : Mongo.cursor)
  : M (list Bson.document) :=
  emit (MongoFind client database c) ;;
  fun w => lift (Mongo.run (mongo w) c) w.

Definition client_close (client : nat) : M unit := emit (MongoClose client).

(** ** Requests and responses *)

(** A GET request: its headers, its query string and the segments of
    its path. *)
Record Request := {
  headers : list (string * string);
  args : list (string * string);
  path : list string
}.

Inductive Body :=
| Json (v : Py.value)
| ErrorPage.

Record Response := {
  status : Z;
  body : Body
}.

(** [jsonify(v)], and [jsonify(v), code]. *)
Definition jsonify (v : Py.value) : Response := {| status := 200; body := Json v |}.

Definition with_status (r : Response) (code : Z) : Response :=
  {| status := code; body := body r |}.

(** [a != b] where [a] is a [str] or [None] and [b] a [str]. *)
Definition differs (a : option string) (b : string) : bool :=
  match a with
  | None => true
  | Some s => negb (String.eqb s b)
  end.

(** ** The program *)

Section Bridge.

Variable cfg : config.

(** Verify API key for protected endpoints. *)
Definition require_api_key (request : Request) : option Response :=
  if differs (Werkzeug.headers_get (headers request) "X-API-Key") (API_KEY cfg)
  then Some (with_status
               (jsonify (Py.VDict [("error", Py.VStr "Unauthorized - Invalid API key")]))
               401)
  else None.

(** Create PostgreSQL connection. *)
Definition get_postgres_connection : M nat :=
  psycopg2_connect (POSTGRES_CONFIG cfg).

(** Create MongoDB client with authentication. *)
Definition get_mongo_client : M nat :=
  let username := mongo_username (MONGO_CONFIG cfg) in
  let password := mongo_password (MONGO_CONFIG cfg) in
  let host := mongo_host (MONGO_CONFIG cfg) in
  let port := mongo_port (MONGO_CONFIG cfg) in
  let database := mongo_database (MONGO_CONFIG cfg) in
  let uri :=
    if Py.truthy username && Py.truthy password
    then "mongodb://" ++ username ++ ":" ++ password ++ "@" ++ host ++ ":"
         ++ Py.str_of_int port ++ "/" ++ database ++ "?authSource=admin"
    else "mongodb://" ++ host ++ ":" ++ Py.str_of_int port ++ "/" ++ database in
  mongo_client_new uri.

(** The body every view answers an exception with. *)
Definition error_response (e : exn) : Response :=
  with_status (jsonify (Py.VDict [("error", Py.VStr (str e))])) 500.

(** [[dict(zip(columns, row)) for row in cur.fetchall()]]. *)
Definition dict_rows (columns : list string) (rows : list (list Py.value))
  : list Py.value :=
  map (fun row => Py.VDict (combine columns row)) rows.

(** Health check endpoint. *)
Definition health_check (request : Request) : M Response :=
  ret (jsonify (Py.VDict [("status", Py.VStr "healthy");
                          ("service", Py.VStr "ai-ecosystem-bridge")])).

(** The statement [get_chatwoot_conversations] hands to [cur.execute],
    as the view writes it. *)
Definition chatwoot_conversations_sql : string := "
            SELECT id, account_id, inbox_id, status, created_at, updated_at
            FROM conversations
            ORDER BY created_at DESC
            LIMIT %s OFFSET %s
            ".

(** The [try] block of [get_chatwoot_conversations]. *)
Definition chatwoot_conversations_body (limit offset : Z) : M Response :=
  conn <- get_postgres_connection ;;
  cur <- conn_cursor conn ;;
  rs <- cur_execute cur chatwoot_conversations_sql [Py.VInt limit; Py.VInt offset] ;;
  let columns := Pg.description rs in
  let results := dict_rows columns (Pg.fetchall rs) in
  cur_close cur ;;
  conn_close conn ;;
  ret (jsonify (Py.VDict [("conversations", Py.VList results)])).

(** Get conversations from Chatwoot (PostgreSQL). *)
Definition get_chatwoot_conversations (request : Request) : M Response :=
  match require_api_key request with
  | Some auth => ret auth
  | None =>
      let limit := Werkzeug.args_get_int (args request) "limit" 50 in
      let offset := Werkzeug.args_get_int (args request) "offset" 0 in
      try_except (chatwoot_conversations_body limit offset)
                 (fun e => ret (error_response e))
  end.

(** The statement [get_chatwoot_messages] hands to [cur.execute]. *)
Definition chatwoot_messages_sql : string := "
            SELECT id, conversation_id, sender_type, content, created_at, message_type
            FROM messages
            WHERE conversation_id = %s
            ORDER BY created_at DESC
            LIMIT %s
            ".

(** The [try] block of [get_chatwoot_messages]. *)
Definition chatwoot_messages_body (conversation_id limit : Z) : M Response :=
  conn <- get_postgres_connection ;;
  cur <- conn_cursor conn ;;
  rs <- cur_execute cur chatwoot_messages_sql
                    [Py.VInt conversation_id; Py.VInt limit] ;;
  let columns := Pg.description rs in
  let results := dict_rows columns (Pg.fetchall rs) in
  cur_close cur ;;
  conn_close conn ;;
  ret (jsonify (Py.VDict [("messages", Py.VList results)])).

(** Get messages from a specific conversation in Chatwoot. *)
Definition get_chatwoot_messages (conversation_id : Z) (request : Request)
  : M Response :=
  match require_api_key request with
  | Some auth => ret auth
  | None =>
      let limit := Werkzeug.args_get_int (args request) "limit" 100 in
      try_except (chatwoot_messages_body conversation_id limit)
                 (fun e => ret (error_response e))
  end.

(** The [try] block of [get_librechat_conversations]. *)
Definition librechat_conversations_body (limit skip : Z) : M Response :=
  client <- get_mongo_client ;;
  let db := mongo_database (MONGO_CONFIG cfg) in
  cursor <- lift (Mongo.skip skip
                    (Mongo.sort "createdAt" (-1)
                       (Mongo.find "conversations" []
                          [("_id", 1); ("title", 1); ("createdAt", 1);
                           ("updatedAt", 1)]))) ;;
  conversations <- cursor_list client db (Mongo.limit limit cursor) ;;
  client_close client ;;
  ret (jsonify (Py.VDict [("conversations",
                           Py.VStr (JsonUtil.dumps conversations))])).

(** Get conversations from LibreChat (MongoDB). *)
Definition get_librechat_conversations (request : Request) : M Response :=
  match require_api_key request with
  | Some auth => ret auth
  | None =>
      let limit := Werkzeug.args_get_int (args request) "limit" 50 in
      let skip := Werkzeug.args_get_int (args request) "skip" 0 in
      try_except (librechat_conversations_body limit skip)
                 (fun e => ret (error_response e))
  end.

(** The [try] block of [get_librechat_messages]. *)
Definition librechat_messages_body (conversation_id : string) (limit : Z)
  : M Response :=
  client <- get_mongo_client ;;
  let db := mongo_database (MONGO_CONFIG cfg) in
  messages <- cursor_list client db
                (Mongo.limit limit
                   (Mongo.sort "createdAt" (-1)
                      (Mongo.find "messages"
                         [("conversationId", Bson.Str conversation_id)]
                         [("_id", 1); ("content", 1); ("role", 1);
                          ("createdAt", 1)]))) ;;
  client_close client ;;
  ret (jsonify (Py.VDict [("messages", Py.VStr (JsonUtil.dumps messages))])).

(** Get messages from a specific conversation in LibreChat. *)
Definition get_librechat_messages (conversation_id : string)
           (request : Request) : M Response :=
  match require_api_key request with
  | Some auth => ret auth
  | None =>
      let limit := Werkzeug.args_get_int (args request) "limit" 100 in
      try_except (librechat_messages_body conversation_id limit)
                 (fun e => ret (error_response e))
  end.

(** The [try] block of [get_librechat_users]. *)
Definition librechat_users_body : M Response :=
  client <- get_mongo_client ;;
  let db := mongo_database (MONGO_CONFIG cfg) in
  users <- cursor_list client db
             (Mongo.find "users" []
                [("_id", 1); ("username", 1); ("email", 1); ("createdAt", 1)]) ;;
  client_close client ;;
  ret (jsonify (Py.VDict [("users", Py.VStr (JsonUtil.dumps users))])).

(** Get users from LibreChat (MongoDB). *)
Definition get_librechat_users (request : Request) : M Response :=
  match require_api_key request with
  | Some auth => ret auth
  | None =>
      try_except librechat_users_body (fun e => ret (error_response e))
  end.

(** *** Routing *)

Inductive endpoint :=
| Docs
| HealthCheck
| ChatwootConversations
| ChatwootMessages (conversation_id : Z)
| LibrechatConversations
| LibrechatMessages (conversation_id : string)
| LibrechatUsers.

(** The endpoints whose view starts with [require_api_key]. *)
Definition protected (e : endpoint) : bool :=
  match e with
  | Docs | HealthCheck => false
  | _ => true
  end.

(** The URL map built by the [@app.route] decorators. *)
Definition url_map_match (segments : list string) : option endpoint :=
  match segments with
  | [] => Some Docs
  | ["health"] => Some HealthCheck
  | ["chatwoot"; "conversations"] => Some ChatwootConversations
  | ["chatwoot"; "messages"; seg] =>
      option_map ChatwootMessages (Werkzeug.int_converter seg)
  | ["librechat"; "conversations"] => Some LibrechatConversations
  | ["librechat"; "messages"; seg] =>
      option_map LibrechatMessages (Werkzeug.string_converter seg)
  | ["librechat"; "users"] => Some LibrechatUsers
  | _ => None
  end.

(** The documentation page is outside the verified core; its view is
    left open. *)
Variable docs : Request -> M Response.

Definition view_function (e : endpoint) : Request -> M Response :=
  match e with
  | Docs => docs
  | HealthCheck => health_check
  | ChatwootConversations => get_chatwoot_conversations
  | ChatwootMessages conversation_id => get_chatwoot_messages conversation_id
  | LibrechatConversations => get_librechat_conversations
  | LibrechatMessages conversation_id => get_librechat_messages conversation_id
  | LibrechatUsers => get_librechat_users
  end.


End Bridge.

(** ** Notions the properties are stated with *)

(** The request carries the configured key. *)
Definition authorized (cfg : config) (request : Request) : Prop :=
  Werkzeug.headers_get (headers request) "X-API-Key" = Some (API_KEY cfg).

(** What a run that started in [w] and ended in [w'] added to the log. *)
Definition new_events (w w' : World) : list event :=
  skipn (List.length (log w)) (log w').

Definition is_attempt (e : event) : bool :=
  match e with
  | PgConnectFailed _ | PgConnect _ _ | MongoClientFailed _ | MongoClient _ _ => true
  | _ => false
  end.

Definition is_query (e : event) : bool :=
  match e with
  | PgExecute _ _ _ | MongoFind _ _ _ => true
  | _ => false
  end.

(** The number of attempts to reach a backend, and of queries sent. *)
Definition attempts (l : list event) : nat := List.length (filter is_attempt l).

Definition queries (l : list event) : nat := List.length (filter is_query l).

Definition closes (h : nat) (e : event) : bool :=
  match e with
  | PgClose c | MongoClose c => Nat.eqb c h
  | _ => false
  end.

(** The connections and clients that were opened and not closed
    afterwards. *)
Fixpoint left_open (l : list event) : list nat :=
  match l with
  | [] => []
  | e :: rest =>
      match e with
      | PgConnect c _ | MongoClient c _ =>
          if existsb (closes c) rest then left_open rest else c :: left_open rest
      | _ => left_open rest
      end
  end.

(** The statements handed to [cur.execute], with their parameters. *)
Fixpoint executed (l : list event) : list (string * list Py.value) :=
  match l with
  | [] => []
  | PgExecute _ sql params :: rest => (sql, params) :: executed rest
  | _ :: rest => executed rest
  end.

(** The cursors that were iterated. *)
Fixpoint found (l : list event) : list Mongo.cursor :=
  match l with
  | [] => []
  | MongoFind _ _ q :: rest => q :: found rest
  | _ :: rest => found rest
  end.

(** No fault is planted in the relational server, in the document
    server. *)
Definition pg_healthy (w : World) : Prop :=
  Pg.connect_error (pg w) = None /\ Pg.query_error (pg w) = None.


(** A row count the relational server takes. *)
Definition row_count (n : Z) : Prop := 0 <= n <= INT64_MAX.

(** [l] is in the order [before]. *)
Definition ordered {A : Type} (before : A -> A -> bool) (l : list A) : Prop :=
  StronglySorted (fun a b => before a b = true) l.

(** [page] holds the newest of [table]: the rows left out are not
    newer than any row of the page. *)
Definition newest_of {A : Type} (created : A -> Z) (table page : list A) : Prop :=
  exists older,
    Permutation table (page ++ older)
    /\ forall a b, In a page -> In b older -> created b <= created a.



(** The [try] block a protected view runs for a request.  The two
    other views have none; the properties below use [try_block] on
    protected endpoints only. *)
Definition try_block (cfg : config) (e : endpoint) (request : Request)
  : M Response :=
  match e with
  | ChatwootConversations =>
      chatwoot_conversations_body cfg
        (Werkzeug.args_get_int (args request) "limit" 50)
        (Werkzeug.args_get_int (args request) "offset" 0)
  | ChatwootMessages conversation_id =>
      chatwoot_messages_body cfg conversation_id
        (Werkzeug.args_get_int (args request) "limit" 100)
  | LibrechatConversations =>
      librechat_conversations_body cfg
        (Werkzeug.args_get_int (args request) "limit" 50)
        (Werkzeug.args_get_int (args request) "skip" 0)
  | LibrechatMessages conversation_id =>
      librechat_messages_body cfg conversation_id
        (Werkzeug.args_get_int (args request) "limit" 100)
  | LibrechatUsers => librechat_users_body cfg
  | Docs | HealthCheck => raise (Exn "LookupError" "no try block")
  end.

(** The endpoints that read the document store, and the key their
    result goes under. *)
Definition document_backed (e : endpoint) : option string :=
  match e with
  | LibrechatConversations => Some "conversations"
  | LibrechatMessages _ => Some "messages"
  | LibrechatUsers => Some "users"
  | _ => None
  end.

(** The URI [get_mongo_client] builds. *)
Definition client_uri (cfg : config) : string :=
  let c := MONGO_CONFIG cfg in
  if Py.truthy (mongo_username c) && Py.truthy (mongo_password c)
  then "mongodb://" ++ mongo_username c ++ ":" ++ mongo_password c ++ "@"
       ++ mongo_host c ++ ":" ++ Py.str_of_int (mongo_port c) ++ "/"
       ++ mongo_database c ++ "?authSource=admin"
  else "mongodb://" ++ mongo_host c ++ ":" ++ Py.str_of_int (mongo_port c)
       ++ "/" ++ mongo_database c.

(** The cursors the document views iterate. *)
Definition conversations_query (limit skip : Z) : Mongo.cursor :=
  {| Mongo.c_collection := "conversations";
     Mongo.c_filter := [];
     Mongo.c_projection := [("_id", 1); ("title", 1); ("createdAt", 1);
                            ("updatedAt", 1)];
     Mongo.c_sort := Some ("createdAt", -1);
     Mongo.c_skip := skip;
     Mongo.c_limit := limit |}.

Definition messages_query (conversation_id : string) (limit : Z) : Mongo.cursor :=
  {| Mongo.c_collection := "messages";
     Mongo.c_filter := [("conversationId", Bson.Str conversation_id)];
     Mongo.c_projection := [("_id", 1); ("content", 1); ("role", 1);
                            ("createdAt", 1)];
     Mongo.c_sort := Some ("createdAt", -1);
     Mongo.c_skip := 0;
     Mongo.c_limit := limit |}.

Definition users_query : Mongo.cursor :=
  {| Mongo.c_collection := "users";
     Mongo.c_filter := [];
     Mongo.c_projection := [("_id", 1); ("username", 1); ("email", 1);
                            ("createdAt", 1)];
     Mongo.c_sort := None;
     Mongo.c_skip := 0;
     Mongo.c_limit := 0 |}.

(** The dictionaries the relational views build from a row. *)
Definition conversation_dict (c : Pg.conversation) : Py.value :=
  Py.VDict [("id", Py.VInt (Pg.c_id c)); ("account_id", Pg.c_account_id c);
            ("inbox_id", Pg.c_inbox_id c); ("status", Pg.c_status c);
            ("created_at", Py.VDatetime (Pg.c_created_at c));
            ("updated_at", Pg.c_updated_at c)].

Definition message_dict (m : Pg.message) : Py.value :=
  Py.VDict [("id", Py.VInt (Pg.m_id m));
            ("conversation_id", Py.VInt (Pg.m_conversation_id m));
            ("sender_type", Pg.m_sender_type m); ("content", Pg.m_content m);
            ("created_at", Py.VDatetime (Pg.m_created_at m));
            ("message_type", Pg.m_message_type m)].

(** ** Sample data *)

Definition sample_conversation (i t : Z) : Pg.conversation :=
  {| Pg.c_id := i; Pg.c_account_id := Py.VInt 1; Pg.c_inbox_id := Py.VInt 2;
     Pg.c_status := Py.VInt 0; Pg.c_created_at := t;
     Pg.c_updated_at := Py.VDatetime t; Pg.c_rest := [("uuid", Py.VStr "u")] |}.

Definition sample_message (i c t : Z) : Pg.message :=
  {| Pg.m_id := i; Pg.m_conversation_id := c; Pg.m_sender_type := Py.VStr "Contact";
     Pg.m_content := Py.VStr "hello"; Pg.m_created_at := t;
     Pg.m_message_type := Py.VInt 0; Pg.m_rest := [] |}.

Definition sample_pg : Pg.server := {|
  Pg.connect_error := None;
  Pg.query_error := None;
  Pg.conversations := [sample_conversation 1 10; sample_conversation 2 50;
                       sample_conversation 3 30; sample_conversation 4 20;
                       sample_conversation 5 40];
  Pg.messages := [sample_message 1 3 31; sample_message 2 3 35;
                  sample_message 3 4 21]
|}.

Definition sample_collection (name : string) : list Bson.document :=
  if String.eqb name "conversations" then
    [[("_id", Bson.ObjectId "65a1f0c2b7e4d93a18c0ffee"); ("title", Bson.Str "first");
      ("user", Bson.Str "u1"); ("createdAt", Bson.Date 5)];
     [("_id", Bson.ObjectId "65a1f0c2b7e4d93a18c0fff0"); ("title", Bson.Str "second");
      ("createdAt", Bson.Date 1700000000000)]]
  else if String.eqb name "users" then
    [[("_id", Bson.ObjectId "65a1f0c2b7e4d93a18c0aaaa"); ("username", Bson.Str "ada");
      ("email", Bson.Str "ada@example.org"); ("password", Bson.Str "hash");
      ("createdAt", Bson.Date 7)]]
  else [].

Definition sample_mongo : Mongo.server := {|
  Mongo.client_error := None;
  Mongo.command_error := None;
  Mongo.collection := sample_collection
|}.

Definition sample_world : World :=
  {| pg := sample_pg; mongo := sample_mongo; log := [] |}.

(** The sample world with a relational server that refuses connections,
    with one that fails every statement, and with a document server
    that fails every command. *)
Definition pg_down_world : World :=
  {| pg := {| Pg.connect_error := Some "could not connect to server";
              Pg.query_error := None;
              Pg.conversations := []; Pg.messages := [] |};
     mongo := sample_mongo; log := [] |}.

Definition pg_failing_world : World :=
  {| pg := {| Pg.connect_error := None;
              Pg.query_error := Some "relation does not exist";
              Pg.conversations := []; Pg.messages := [] |};
     mongo := sample_mongo; log := [] |}.

Definition mongo_failing_world : World :=
  {| pg := sample_pg;
     mongo := {| Mongo.client_error := None;
                 Mongo.command_error := Some "No servers found yet";
                 Mongo.collection := fun _ => [] |};
     log := [] |}.

(** A request with the given key and query string. *)
Definition sample_request (segments : list string) (key : string)
           (query : list (string * string)) : Request :=
  {| headers := [("Accept", "*/*"); ("X-API-Key", key)]; args := query;
     path := segments |}.

Definition good_key : string := API_KEY default_config.

(** ** The configuration at start-up *)

(** The value of a variable of the environment, when it is set. *)
Fixpoint environ_get (environ : list (string * string)) (name : string)
  : option string :=
  match environ with
  | [] => None
  | (k, v) :: rest => if String.eqb k name then Some v else environ_get rest name
  end.

(** [os.getenv(name, default)]. *)
Definition getenv (environ : list (string * string)) (name default : string)
  : string :=
  match environ_get environ name with
  | Some v => v
  | None => default
  end.

(** The three module-level assignments that read the environment.
    [None] stands for the [ValueError] [int] raises on the text of
    [MONGO_PORT], which ends the import of the module. *)
Definition load_config (environ : list (string * string)) : option config :=
  let postgres :=
    {| pg_host := getenv environ "POSTGRES_HOST" "postgres";
       pg_port := getenv environ "POSTGRES_PORT" "5432";
       pg_database := getenv environ "POSTGRES_DB" "chatwoot";
       pg_user := getenv environ "POSTGRES_USER" "chatwoot";
       pg_password := getenv environ "POSTGRES_PASSWORD" "chatwoot" |} in
  match Py.int_of_str (getenv environ "MONGO_PORT" "27017") with
  | None => None
  | Some port =>
      Some {| POSTGRES_CONFIG := postgres;
              MONGO_CONFIG :=
                {| mongo_host := getenv environ "MONGO_HOST" "mongo";
                   mongo_port := port;
                   mongo_database := getenv environ "MONGO_DB" "LibreChat";
                   mongo_username := getenv environ "MONGO_ROOT_USERNAME" "";
                   mongo_password := getenv environ "MONGO_ROOT_PASSWORD" "" |};
              API_KEY := getenv environ "BRIDGE_API_KEY"
                                "deepnote-api-key-change-me" |}
  end.

(** ** More notions *)

(** The key a protected view puts its result under. *)
Definition resource (e : endpoint) : option string :=
  match e with
  | ChatwootConversations | LibrechatConversations => Some "conversations"
  | ChatwootMessages _ | LibrechatMessages _ => Some "messages"
  | LibrechatUsers => Some "users"
  | Docs | HealthCheck => None
  end.

(** The endpoints that read the relational store. *)
Definition relational (e : endpoint) : bool :=
  match e with
  | ChatwootConversations | ChatwootMessages _ => true
  | _ => false
  end.

Definition is_pg_event (ev : event) : bool :=
  match ev with
  | PgConnectFailed _ | PgConnect _ _ | PgCursor _ | PgExecute _ _ _
  | PgCursorClose _ | PgClose _ => true
  | _ => false
  end.

(** An event of the relational driver that names no address but the
    configured one. *)
Definition pg_event_of (cfg : config) (ev : event) : Prop :=
  match ev with
  | PgConnectFailed dsn | PgConnect _ dsn => dsn = POSTGRES_CONFIG cfg
  | PgCursor _ | PgExecute _ _ _ | PgCursorClose _ | PgClose _ => True
  | _ => False
  end.

(** An event of the document driver that names no URI and no database
    but the configured ones. *)
Definition mongo_event_of (cfg : config) (ev : event) : Prop :=
  match ev with
  | MongoClientFailed uri | MongoClient _ uri => uri = client_uri cfg
  | MongoFind _ database _ => database = mongo_database (MONGO_CONFIG cfg)
  | MongoClose _ => True
  | _ => False
  end.

(** Two relational servers that fail alike and hold, row by row, the
    same values in the columns the statements select. *)
Definition same_selected_columns (s s' : Pg.server) : Prop :=
  Pg.connect_error s = Pg.connect_error s'
  /\ Pg.query_error s = Pg.query_error s'
  /\ Forall2 (fun c c' => Pg.conversation_tuple c = Pg.conversation_tuple c')
             (Pg.conversations s) (Pg.conversations s')
  /\ Forall2 (fun m m' => Pg.message_tuple m = Pg.message_tuple m')
             (Pg.messages s) (Pg.messages s').

(** The sample relational server with other values in the columns no
    statement selects. *)
Definition sample_pg_other_rest : Pg.server := {|
  Pg.connect_error := None;
  Pg.query_error := None;
  Pg.conversations :=
    map (fun c => {| Pg.c_id := Pg.c_id c; Pg.c_account_id := Pg.c_account_id c;
                     Pg.c_inbox_id := Pg.c_inbox_id c; Pg.c_status := Pg.c_status c;
                     Pg.c_created_at := Pg.c_created_at c;
                     Pg.c_updated_at := Pg.c_updated_at c;
                     Pg.c_rest := [("uuid", Py.VStr "other"); ("priority", Py.VInt 3)] |})
        (Pg.conversations sample_pg);
  Pg.messages :=
    map (fun m => {| Pg.m_id := Pg.m_id m;
                     Pg.m_conversation_id := Pg.m_conversation_id m;
                     Pg.m_sender_type := Pg.m_sender_type m;
                     Pg.m_content := Pg.m_content m;
                     Pg.m_created_at := Pg.m_created_at m;
                     Pg.m_message_type := Pg.m_message_type m;
                     Pg.m_rest := [("private", Py.VInt 1)] |})
        (Pg.messages sample_pg)
|}.

(** The sample document store with three messages, two of them of
    conversation [c-1]. *)
Definition messages_collection (name : string) : list Bson.document :=
  if String.eqb name "messages" then
    [[("_id", Bson.ObjectId "65a1f0c2b7e4d93a18c0bb01");
      ("conversationId", Bson.Str "c-1"); ("content", Bson.Str "hi");
      ("role", Bson.Str "user"); ("tokenCount", Bson.Int 3);
      ("createdAt", Bson.Date 100)];
     [("_id", Bson.ObjectId "65a1f0c2b7e4d93a18c0bb02");
      ("conversationId", Bson.Str "c-2"); ("content", Bson.Str "other");
      ("role", Bson.Str "user"); ("createdAt", Bson.Date 150)];
     [("_id", Bson.ObjectId "65a1f0c2b7e4d93a18c0bb03");
      ("conversationId", Bson.Str "c-1"); ("content", Bson.Str "hello");
      ("role", Bson.Str "assistant"); ("createdAt", Bson.Date 200)]]
  else sample_collection name.

Definition messages_world : World :=
  {| pg := sample_pg;
     mongo := {| Mongo.client_error := None; Mongo.command_error := None;
                 Mongo.collection := messages_collection |};
     log := [] |}.

(** Two worlds that agree on what a protected view reads: the faults
    of its server and the content of its one table or collection. *)
Definition same_footprint (e : endpoint) (w w' : World) : Prop :=
  match e with
  | ChatwootConversations =>
      Pg.connect_error (pg w) = Pg.connect_error (pg w')
      /\ Pg.query_error (pg w) = Pg.query_error (pg w')
      /\ Pg.conversations (pg w) = Pg.conversations (pg w')
  | ChatwootMessages _ =>
      Pg.connect_error (pg w) = Pg.connect_error (pg w')
      /\ Pg.query_error (pg w) = Pg.query_error (pg w')
      /\ Pg.messages (pg w) = Pg.messages (pg w')
  | LibrechatConversations =>
      Mongo.client_error (mongo w) = Mongo.client_error (mongo w')
      /\ Mongo.command_error (mongo w) = Mongo.command_error (mongo w')
      /\ Mongo.collection (mongo w) "conversations"
         = Mongo.collection (mongo w') "conversations"
  | LibrechatMessages _ =>
      Mongo.client_error (mongo w) = Mongo.client_error (mongo w')
      /\ Mongo.command_error (mongo w) = Mongo.command_error (mongo w')
      /\ Mongo.collection (mongo w) "messages"
         = Mongo.collection (mongo w') "messages"
  | LibrechatUsers =>
      Mongo.client_error (mongo w) = Mongo.client_error (mongo w')
      /\ Mongo.command_error (mongo w) = Mongo.command_error (mongo w')
      /\ Mongo.collection (mongo w) "users" = Mongo.collection (mongo w') "users"
  | Docs | HealthCheck => True
  end.

(** * Properties *)

(** ** The monad and the log *)

Lemma extend_extend (w : World) (a b : list event) :
  extend (extend w a) b = extend w (a ++ b).
Proof. unfold extend; simpl. now rewrite <- app_assoc. Qed.

Lemma new_events_extend (w : World) (l : list event) :
  new_events w (extend w l) = l.
Proof.
  unfold new_events, extend; simpl.
  induction (log w) as [|e rest IH]; simpl; auto.
Qed.

Lemma new_events_same (w : World) : new_events w w = [].
Proof.
  unfold new_events. induction (log w); simpl; auto.
Qed.

(** ** The authorization gate *)

Lemma differs_spec (a : option string) (b : string) :
  differs a b = true <-> a <> Some b.
Proof.
  destruct a as [s|]; simpl.
  - rewrite negb_true_iff. split.
    + intros H E. injection E as ->. now rewrite String.eqb_refl in H.
    + intros H. apply String.eqb_neq. congruence.
  - split; [discriminate | reflexivity].
Qed.

Lemma require_api_key_refuses (cfg : config) (request : Request) :
  Werkzeug.headers_get (headers request) "X-API-Key" <> Some (API_KEY cfg) ->
  require_api_key cfg request
  = Some {| status := 401;
            body := Json (Py.VDict [("error", Py.VStr "Unauthorized - Invalid API key")]) |}.
Proof.
  intros H. unfold require_api_key.
  now rewrite (proj2 (differs_spec _ _) H).
Qed.

Lemma require_api_key_passes (cfg : config) (request : Request) :
  authorized cfg request -> require_api_key cfg request = None.
Proof.
  unfold authorized, require_api_key. intros ->. simpl.
  now rewrite String.eqb_refl.
Qed.

Lemma unauthorized_gate_lemma (cfg : config) (docs : Request -> M Response)
      (e : endpoint) (request : Request) (w : World) :
  protected e = true ->
  Werkzeug.headers_get (headers request) "X-API-Key" <> Some (API_KEY cfg) ->
  view_function cfg docs e request w
  = (Return {| status := 401;
               body := Json (Py.VDict [("error",
                                        Py.VStr "Unauthorized - Invalid API key")]) |},
     w)
  /\ new_events w (snd (view_function cfg docs e request w)) = [].
Proof.
  intros Hp Hk.
  assert (view_function cfg docs e request w
          = (Return {| status := 401;
                       body := Json (Py.VDict [("error",
                                  Py.VStr "Unauthorized - Invalid API key")]) |},
             w)) as E.
  { destruct e; try discriminate Hp; simpl;
      unfold get_chatwoot_conversations, get_chatwoot_messages,
        get_librechat_conversations, get_librechat_messages, get_librechat_users;
      now rewrite (require_api_key_refuses cfg request Hk). }
  split; [exact E|]. rewrite E. simpl. apply new_events_same.
Qed.

(** C1.  On each of the five protected routes, a request whose
    [X-API-Key] header is missing or is not the configured key is
    answered with status 401 and the body
    [{"error": "Unauthorized - Invalid API key"}], and the world is left
    as it was: nothing is added to the log, so no connection is opened
    and no query is sent. *)
Theorem unauthorized_request_is_refused_before_any_backend_call
        (cfg : config) (docs : Request -> M Response) (e : endpoint)
        (request : Request) (w : World) :
  protected e = true ->
  Werkzeug.headers_get (headers request) "X-API-Key" <> Some (API_KEY cfg) ->
  view_function cfg docs e request w
  = (Return {| status := 401;
               body := Json (Py.VDict [("error",
                                        Py.VStr "Unauthorized - Invalid API key")]) |},
     w)
  /\ attempts (new_events w (snd (view_function cfg docs e request w))) = 0%nat
  /\ queries (new_events w (snd (view_function cfg docs e request w))) = 0%nat.
Proof.
  intros Hp Hk.
  destruct (unauthorized_gate_lemma cfg docs e request w Hp Hk) as [E N].
  split; [exact E|]. now rewrite N.
Qed.


(** ** What a [try] block does, step by step *)

Lemma parse_conversations_sql :
  Pg.parse chatwoot_conversations_sql = Some Pg.SelectConversations.
Proof. reflexivity. Qed.

Lemma parse_messages_sql :
  Pg.parse chatwoot_messages_sql = Some Pg.SelectMessages.
Proof. reflexivity. Qed.

Ltac unfold_monad :=
  unfold bind, ret, raise, lift, fresh, emit, try_except in *.

Ltac unfold_drivers :=
  unfold get_postgres_connection, psycopg2_connect, conn_cursor, cur_execute,
    cur_close, conn_close, get_mongo_client, mongo_client_new, cursor_list,
    client_close in *.

Ltac tidy_log := simpl; repeat rewrite extend_extend; simpl.

(** The session every relational view opens: connect, take a cursor,
    execute, close both. *)
Lemma chatwoot_conversations_body_run (cfg : config) (limit offset : Z) (w : World) :
  chatwoot_conversations_body cfg limit offset w =
  let dsn := POSTGRES_CONFIG cfg in
  let conn := List.length (log w) in
  let params := [Py.VInt limit; Py.VInt offset] in
  match Pg.connect_error (pg w) with
  | Some text =>
      (Raise (Exn "psycopg2.OperationalError" text), extend w [PgConnectFailed dsn])
  | None =>
      match Pg.run (pg w) Pg.SelectConversations params with
      | Raise e =>
          (Raise e,
           extend w [PgConnect conn dsn; PgCursor conn;
                     PgExecute conn chatwoot_conversations_sql params])
      | Return rs =>
          (Return (jsonify (Py.VDict
                     [("conversations",
                       Py.VList (dict_rows (Pg.description rs) (Pg.fetchall rs)))])),
           extend w [PgConnect conn dsn; PgCursor conn;
                     PgExecute conn chatwoot_conversations_sql params;
                     PgCursorClose conn; PgClose conn])
      end
  end.
Proof.
  unfold chatwoot_conversations_body. unfold_drivers. unfold_monad.
  destruct (Pg.connect_error (pg w)) as [text|]; [reflexivity|].
  rewrite parse_conversations_sql. tidy_log.
  destruct (Pg.run (pg w) Pg.SelectConversations _) as [rs|e]; tidy_log; reflexivity.
Qed.

Lemma chatwoot_messages_body_run (cfg : config) (conversation_id limit : Z) (w : World) :
  chatwoot_messages_body cfg conversation_id limit w =
  let dsn := POSTGRES_CONFIG cfg in
  let conn := List.length (log w) in
  let params := [Py.VInt conversation_id; Py.VInt limit] in
  match Pg.connect_error (pg w) with
  | Some text =>
      (Raise (Exn "psycopg2.OperationalError" text), extend w [PgConnectFailed dsn])
  | None =>
      match Pg.run (pg w) Pg.SelectMessages params with
      | Raise e =>
          (Raise e,
           extend w [PgConnect conn dsn; PgCursor conn;
                     PgExecute conn chatwoot_messages_sql params])
      | Return rs =>
          (Return (jsonify (Py.VDict
                     [("messages",
                       Py.VList (dict_rows (Pg.description rs) (Pg.fetchall rs)))])),
           extend w [PgConnect conn dsn; PgCursor conn;
                     PgExecute conn chatwoot_messages_sql params;
                     PgCursorClose conn; PgClose conn])
      end
  end.
Proof.
  unfold chatwoot_messages_body. unfold_drivers. unfold_monad.
  destruct (Pg.connect_error (pg w)) as [text|]; [reflexivity|].
  rewrite parse_messages_sql. tidy_log.
  destruct (Pg.run (pg w) Pg.SelectMessages _) as [rs|e]; tidy_log; reflexivity.
Qed.

(** The session every document view opens: make a client, iterate one
    cursor, close the client. *)
Lemma librechat_conversations_body_run (cfg : config) (limit skip : Z) (w : World) :
  librechat_conversations_body cfg limit skip w =
  let uri := client_uri cfg in
  let db := mongo_database (MONGO_CONFIG cfg) in
  let client := List.length (log w) in
  let q := conversations_query limit skip in
  match Mongo.client_error (mongo w) with
  | Some text =>
      (Raise (Exn "pymongo.errors.PyMongoError" text), extend w [MongoClientFailed uri])
  | None =>
      if skip <? 0
      then (Raise (Exn "ValueError" "skip must be >= 0"),
            extend w [MongoClient client uri])
      else
        match Mongo.run (mongo w) q with
        | Raise e => (Raise e, extend w [MongoClient client uri; MongoFind client db q])
        | Return docs =>
            (Return (jsonify (Py.VDict [("conversations",
                                         Py.VStr (JsonUtil.dumps docs))])),
             extend w [MongoClient client uri; MongoFind client db q;
                       MongoClose client])
        end
  end.
Proof.
  unfold librechat_conversations_body. unfold_drivers. unfold_monad.
  fold (client_uri cfg).
  destruct (Mongo.client_error (mongo w)) as [text|]; [reflexivity|].
  unfold Mongo.skip. simpl. destruct (skip <? 0); [reflexivity|].
  tidy_log. fold (conversations_query limit skip).
  destruct (Mongo.run (mongo w) _) as [docs|e]; tidy_log; reflexivity.
Qed.

Lemma librechat_messages_body_run (cfg : config) (conversation_id : string)
      (limit : Z) (w : World) :
  librechat_messages_body cfg conversation_id limit w =
  let uri := client_uri cfg in
  let db := mongo_database (MONGO_CONFIG cfg) in
  let client := List.length (log w) in
  let q := messages_query conversation_id limit in
  match Mongo.client_error (mongo w) with
  | Some text =>
      (Raise (Exn "pymongo.errors.PyMongoError" text), extend w [MongoClientFailed uri])
  | None =>
      match Mongo.run (mongo w) q with
      | Raise e => (Raise e, extend w [MongoClient client uri; MongoFind client db q])
      | Return docs =>
          (Return (jsonify (Py.VDict [("messages", Py.VStr (JsonUtil.dumps docs))])),
           extend w [MongoClient client uri; MongoFind client db q;
                     MongoClose client])
      end
  end.
Proof.
  unfold librechat_messages_body. unfold_drivers. unfold_monad.
  fold (client_uri cfg).
  destruct (Mongo.client_error (mongo w)) as [text|]; [reflexivity|].
  tidy_log. fold (messages_query conversation_id limit).
  destruct (Mongo.run (mongo w) _) as [docs|e]; tidy_log; reflexivity.
Qed.

Lemma librechat_users_body_run (cfg : config) (w : World) :
  librechat_users_body cfg w =
  let uri := client_uri cfg in
  let db := mongo_database (MONGO_CONFIG cfg) in
  let client := List.length (log w) in
  match Mongo.client_error (mongo w) with
  | Some text =>
      (Raise (Exn "pymongo.errors.PyMongoError" text), extend w [MongoClientFailed uri])
  | None =>
      match Mongo.run (mongo w) users_query with
      | Raise e =>
          (Raise e, extend w [MongoClient client uri; MongoFind client db users_query])
      | Return docs =>
          (Return (jsonify (Py.VDict [("users", Py.VStr (JsonUtil.dumps docs))])),
           extend w [MongoClient client uri; MongoFind client db users_query;
                     MongoClose client])
      end
  end.
Proof.
  unfold librechat_users_body. unfold_drivers. unfold_monad.
  fold (client_uri cfg).
  destruct (Mongo.client_error (mongo w)) as [text|]; [reflexivity|].
  tidy_log. fold users_query.
  destruct (Mongo.run (mongo w) _) as [docs|e]; tidy_log; reflexivity.
Qed.

(** ** A protected view is the gate followed by its guarded [try] block *)

Lemma view_function_guarded (cfg : config) (docs : Request -> M Response)
      (e : endpoint) (request : Request) :
  protected e = true ->
  authorized cfg request ->
  view_function cfg docs e request
  = try_except (try_block cfg e request) (fun ex => ret (error_response ex)).
Proof.
  intros Hp Ha.
  destruct e; try discriminate Hp; simpl;
    unfold get_chatwoot_conversations, get_chatwoot_messages,
      get_librechat_conversations, get_librechat_messages, get_librechat_users;
    now rewrite (require_api_key_passes cfg request Ha).
Qed.

Ltac run_block :=
  first [ rewrite chatwoot_conversations_body_run
        | rewrite chatwoot_messages_body_run
        | rewrite librechat_conversations_body_run
        | rewrite librechat_messages_body_run
        | rewrite librechat_users_body_run ]; cbv zeta.

Ltac split_cases :=
  repeat match goal with
         | |- context [match Pg.connect_error ?s with _ => _ end] =>
             destruct (Pg.connect_error s) eqn:?
         | |- context [match Mongo.client_error ?s with _ => _ end] =>
             destruct (Mongo.client_error s) eqn:?
         | |- context [match Pg.run ?s ?st ?p with _ => _ end] =>
             destruct (Pg.run s st p) eqn:?
         | |- context [match Mongo.run ?s ?q with _ => _ end] =>
             destruct (Mongo.run s q) eqn:?
         | |- context [if ?n <? 0 then _ else _] =>
             destruct (n <? 0) eqn:?
         end.

(** A [try] block only adds to the log; it makes one attempt to reach
    its backend and sends at most one query. *)
Lemma try_block_log (cfg : config) (e : endpoint) (request : Request) (w : World) :
  protected e = true ->
  exists delta,
    snd (try_block cfg e request w) = extend w delta
    /\ attempts delta = 1%nat
    /\ (queries delta <= 1)%nat.
Proof.
  intros Hp. destruct e; try discriminate Hp; simpl; run_block; split_cases;
    eexists; (split; [reflexivity|]); split; simpl; auto.
Qed.

(** When a [try] block ends without an exception, the status is 200 and
    what it opened is closed. *)
Lemma try_block_success (cfg : config) (e : endpoint) (request : Request)
      (w w' : World) (r : Response) :
  protected e = true ->
  try_block cfg e request w = (Return r, w') ->
  status r = 200 /\ left_open (new_events w w') = [].
Proof.
  intros Hp. destruct e; try discriminate Hp; simpl; run_block; split_cases;
    intros E; try discriminate E; injection E as <- <-;
    rewrite new_events_extend; simpl; rewrite Nat.eqb_refl; simpl; auto.
Qed.

(** The response of a [try] block does not depend on the log. *)
Lemma try_block_ignores_log (cfg : config) (e : endpoint) (request : Request)
      (w : World) (delta : list event) :
  protected e = true ->
  fst (try_block cfg e request (extend w delta)) = fst (try_block cfg e request w).
Proof.
  intros Hp. destruct e; try discriminate Hp; simpl; repeat run_block;
    change (pg (extend w delta)) with (pg w);
    change (mongo (extend w delta)) with (mongo w);
    split_cases; reflexivity.
Qed.

Lemma fst_try_except {A : Type} (m : M A) (f : exn -> A) (w : World) :
  fst (try_except m (fun ex => ret (f ex)) w)
  = match fst (m w) with
    | Return a => Return a
    | Raise ex => Return (f ex)
    end.
Proof. unfold try_except, ret. now destruct (m w) as [[a|ex] w']. Qed.

Lemma snd_try_except {A : Type} (m : M A) (f : exn -> A) (w : World) :
  snd (try_except m (fun ex => ret (f ex)) w) = snd (m w).
Proof. unfold try_except, ret. now destruct (m w) as [[a|ex] w']. Qed.

(** The response of a view other than the documentation page does not
    depend on the log: what earlier requests did to the drivers does
    not change what a later request is answered. *)
Lemma view_ignores_log (cfg : config) (docs : Request -> M Response)
      (e : endpoint) (request : Request) (w : World) (delta : list event) :
  e <> Docs ->
  fst (view_function cfg docs e request (extend w delta))
  = fst (view_function cfg docs e request w).
Proof.
  intros He.
  destruct (protected e) eqn:Hp.
  - destruct (differs (Werkzeug.headers_get (headers request) "X-API-Key")
                      (API_KEY cfg)) eqn:Hd.
    + apply differs_spec in Hd.
      now rewrite !(proj1 (unauthorized_gate_lemma cfg docs e request _ Hp Hd)).
    + assert (authorized cfg request) as Ha.
      { unfold authorized. destruct (Werkzeug.headers_get _ _) as [s|];
          simpl in Hd; [|discriminate].
        apply negb_false_iff, String.eqb_eq in Hd. now subst. }
      rewrite (view_function_guarded cfg docs e request Hp Ha).
      rewrite !fst_try_except. now rewrite try_block_ignores_log.
  - destruct e; try discriminate Hp; [contradiction | reflexivity].
Qed.

(** ** Backend errors *)

(** C5.  On a protected route, an authorized request always gets a
    response: the view never raises.  When anything in its [try] block
    raises (the connection, the query, any other call of the driver),
    the response has status 500 and the body [{"error": str(e)}], which
    carries the text of the exception as it is, so it is not empty when
    that text is not.  The block makes one attempt to reach the backend
    and sends at most one query (nothing is retried), and a later
    request is answered as if this one had not been made. *)
Theorem backend_error_is_answered_with_500
        (cfg : config) (docs : Request -> M Response) (e : endpoint)
        (request : Request) (w : World) :
  protected e = true ->
  authorized cfg request ->
  exists resp delta,
    view_function cfg docs e request w = (Return resp, extend w delta)
    /\ (forall ex w1,
          try_block cfg e request w = (Raise ex, w1) ->
          status resp = 500
          /\ body resp = Json (Py.VDict [("error", Py.VStr (str ex))])
          /\ (str ex <> "" ->
              exists text, body resp = Json (Py.VDict [("error", Py.VStr text)])
                           /\ text <> ""))
    /\ attempts delta = 1%nat
    /\ (queries delta <= 1)%nat
    /\ (forall e2 request2,
          e2 <> Docs ->
          fst (view_function cfg docs e2 request2 (extend w delta))
          = fst (view_function cfg docs e2 request2 w)).
Proof.
  intros Hp Ha.
  destruct (try_block_log cfg e request w Hp) as (delta & Hw & Hat & Hq).
  rewrite (view_function_guarded cfg docs e request Hp Ha).
  unfold try_except, ret.
  destruct (try_block cfg e request w) as [[r|ex] w'] eqn:E; simpl in Hw; subst w'.
  - exists r, delta. split; [reflexivity|]. split; [intros ex w1 [=]|].
    repeat split; auto. intros e2 request2 He2. now apply view_ignores_log.
  - exists (error_response ex), delta. split; [reflexivity|]. split.
    + intros ex' w1 [= <- _]. repeat split. intros Hne. now exists (str ex).
    + repeat split; auto. intros e2 request2 He2. now apply view_ignores_log.
Qed.

(** A refused connection, a failed statement and a failed command, each
    with the text the driver gives. *)
Lemma refused_connection_is_answered_with_500 (cfg : config) (request : Request)
      (w : World) (text : string) :
  authorized cfg request ->
  Pg.connect_error (pg w) = Some text ->
  get_chatwoot_conversations cfg request w
  = (Return {| status := 500; body := Json (Py.VDict [("error", Py.VStr text)]) |},
     extend w [PgConnectFailed (POSTGRES_CONFIG cfg)]).
Proof.
  intros Ha Hc. unfold get_chatwoot_conversations.
  rewrite (require_api_key_passes cfg request Ha). unfold try_except.
  run_block. now rewrite Hc.
Qed.

Lemma failed_command_is_answered_with_500 (cfg : config) (request : Request)
      (w : World) (text : string) :
  authorized cfg request ->
  Mongo.client_error (mongo w) = None ->
  Mongo.command_error (mongo w) = Some text ->
  fst (get_librechat_users cfg request w)
  = Return {| status := 500; body := Json (Py.VDict [("error", Py.VStr text)]) |}.
Proof.
  intros Ha Hc Hq. unfold get_librechat_users.
  rewrite (require_api_key_passes cfg request Ha). unfold try_except.
  run_block. rewrite Hc. unfold Mongo.run. now rewrite Hq.
Qed.

(** ** The life of a connection *)

(** When the [try] block raises after the connection or the client was
    made, the view returns with it still open: the calls that close it
    stand inside the block, after the call that raised. *)
Lemma try_block_failure_leaks (cfg : config) (e : endpoint) (request : Request)
      (w w' : World) (ex : exn) :
  protected e = true ->
  Pg.connect_error (pg w) = None ->
  Mongo.client_error (mongo w) = None ->
  try_block cfg e request w = (Raise ex, w') ->
  left_open (new_events w w') = [List.length (log w)].
Proof.
  intros Hp Hc Hm.
  destruct e; try discriminate Hp; simpl; run_block; rewrite ?Hc, ?Hm;
    split_cases; intros E; try discriminate E; injection E as <- <-;
    rewrite new_events_extend; reflexivity.
Qed.

(** C2.  The claim fails on the path of a failure.  With a relational
    server that fails the statement, [get_chatwoot_conversations] answers
    500 and returns with connection 0 opened and never closed; with a
    document server that fails the command, [get_librechat_conversations]
    does the same with client 0. *)
Theorem failed_query_leaves_the_connection_open :
  let request := sample_request ["chatwoot"; "conversations"] good_key [] in
  let run := get_chatwoot_conversations default_config request pg_failing_world in
  let request' := sample_request ["librechat"; "conversations"] good_key [] in
  let run' := get_librechat_conversations default_config request' mongo_failing_world in
  (fst run = Return {| status := 500;
                       body := Json (Py.VDict [("error",
                                                Py.VStr "relation does not exist")]) |}
   /\ new_events pg_failing_world (snd run)
      = [PgConnect 0 (POSTGRES_CONFIG default_config); PgCursor 0;
         PgExecute 0 chatwoot_conversations_sql [Py.VInt 50; Py.VInt 0]]
   /\ left_open (new_events pg_failing_world (snd run)) = [0%nat])
  /\
  (fst run' = Return {| status := 500;
                        body := Json (Py.VDict [("error",
                                                 Py.VStr "No servers found yet")]) |}
   /\ new_events mongo_failing_world (snd run')
      = [MongoClient 0 "mongodb://mongo:27017/LibreChat";
         MongoFind 0 "LibreChat" (conversations_query 50 0)]
   /\ left_open (new_events mongo_failing_world (snd run')) = [0%nat]).
Proof. vm_compute. repeat split. Qed.

(** ** Ordering *)

Section OrderByFacts.

Context {A : Type}.
Variable before : A -> A -> bool.
Hypothesis before_total : forall a b, before a b = true \/ before b a = true.
Hypothesis before_trans :
  forall a b c, before a b = true -> before b c = true -> before a c = true.

Lemma insert_by_perm (x : A) (l : list A) :
  Permutation (insert_by before x l) (x :: l).
Proof.
  induction l as [|y l IH]; simpl.
  - apply Permutation_refl.
  - destruct (before x y).
    + apply Permutation_refl.
    + eapply perm_trans; [apply perm_skip, IH | apply perm_swap].
Qed.

Lemma order_by_perm (l : list A) : Permutation (order_by before l) l.
Proof.
  induction l as [|x l IH]; simpl.
  - constructor.
  - eapply perm_trans; [apply insert_by_perm | now apply perm_skip].
Qed.

Lemma insert_by_ordered (x : A) (l : list A) :
  ordered before l -> ordered before (insert_by before x l).
Proof.
  unfold ordered. induction l as [|y l IH]; simpl; intros Hs.
  - repeat constructor.
  - inversion Hs as [|y' l' Hs' Hall]; subst.
    destruct (before x y) eqn:Hxy.
    + constructor; [exact Hs|]. constructor; [exact Hxy|].
      eapply Forall_impl; [|exact Hall]. intros z Hz. eauto.
    + assert (before y x = true) as Hyx
          by (destruct (before_total x y); congruence).
      constructor; [now apply IH|].
      eapply Permutation_Forall; [apply Permutation_sym, insert_by_perm|].
      now constructor.
Qed.

Lemma order_by_ordered (l : list A) : ordered before (order_by before l).
Proof.
  induction l as [|x l IH]; simpl.
  - constructor.
  - now apply insert_by_ordered.
Qed.

End OrderByFacts.

Section OrderedFacts.

Context {A : Type}.
Variable before : A -> A -> bool.

Lemma ordered_app (l1 l2 : list A) :
  ordered before (l1 ++ l2) ->
  ordered before l1 /\ ordered before l2
  /\ forall a b, In a l1 -> In b l2 -> before a b = true.
Proof.
  unfold ordered. induction l1 as [|x l1 IH]; simpl; intros Hs.
  - repeat split; [constructor | exact Hs | contradiction].
  - inversion Hs as [|x' l' Hs' Hall]; subst.
    destruct (IH Hs') as (H1 & H2 & H3).
    apply Forall_app in Hall as [Ha1 Ha2].
    repeat split; [now constructor | exact H2 |].
    intros a b [<-|Ha] Hb; [|now apply H3].
    rewrite Forall_forall in Ha2. now apply Ha2.
Qed.

Lemma ordered_firstn (n : nat) (l : list A) :
  ordered before l -> ordered before (firstn n l).
Proof.
  intros Hs. rewrite <- (firstn_skipn n l) in Hs.
  now apply ordered_app in Hs.
Qed.


(** The first [n] of an ordered list stand before all the others. *)
Lemma ordered_page (n : nat) (l : list A) :
  ordered before l ->
  forall a b, In a (firstn n l) -> In b (skipn n l) -> before a b = true.
Proof.
  intros Hs. rewrite <- (firstn_skipn n l) in Hs.
  now apply ordered_app in Hs.
Qed.

End OrderedFacts.




Lemma newest_messages_first_ordered (l : list Pg.message) :
  ordered (fun a b => Pg.m_created_at b <=? Pg.m_created_at a)
          (Pg.newest_messages_first l).
Proof.
  apply order_by_ordered.
  - intros a b. rewrite !Z.leb_le. lia.
  - intros a b c. rewrite !Z.leb_le. lia.
Qed.




(** ** The relational views on a healthy server *)

Lemma check_count_ok (clause : string) (n : Z) :
  row_count n -> Pg.check_count clause n = None.
Proof.
  unfold row_count, Pg.check_count. intros [H0 H1].
  destruct (n <? 0) eqn:E0; [apply Z.ltb_lt in E0; lia|].
  destruct (INT64_MAX <? n) eqn:E1; [apply Z.ltb_lt in E1; lia|].
  reflexivity.
Qed.


Lemma dict_rows_messages (l : list Pg.message) :
  dict_rows ["id"; "conversation_id"; "sender_type"; "content"; "created_at";
             "message_type"]
            (map Pg.message_tuple l)
  = map message_dict l.
Proof. unfold dict_rows. rewrite map_map. reflexivity. Qed.


Lemma get_chatwoot_messages_ok (cfg : config) (conversation_id : Z)
      (request : Request) (w : World) :
  let limit := Werkzeug.args_get_int (args request) "limit" 100 in
  let conn := List.length (log w) in
  authorized cfg request ->
  pg_healthy w ->
  row_count limit ->
  get_chatwoot_messages cfg conversation_id request w
  = (Return (jsonify (Py.VDict
       [("messages",
         Py.VList (map message_dict
                     (firstn (Z.to_nat limit)
                        (Pg.newest_messages_first
                           (filter (fun m => Pg.m_conversation_id m =? conversation_id)
                                   (Pg.messages (pg w))))))) ])),
     extend w [PgConnect conn (POSTGRES_CONFIG cfg); PgCursor conn;
               PgExecute conn chatwoot_messages_sql
                         [Py.VInt conversation_id; Py.VInt limit];
               PgCursorClose conn; PgClose conn]).
Proof.
  intros limit conn Ha [Hc Hq] Hl.
  unfold get_chatwoot_messages.
  rewrite (require_api_key_passes cfg request Ha). unfold try_except.
  run_block. rewrite Hc. unfold Pg.run. rewrite Hq.
  fold limit.
  rewrite (check_count_ok "LIMIT" limit Hl).
  unfold Pg.fetchall; simpl Pg.rows; simpl Pg.description.
  now rewrite dict_rows_messages.
Qed.

(** ** The document views on a healthy server *)






(** ** Pages *)





Lemma firstn_newest_of {A : Type} (created : A -> Z) (n : nat)
      (table sorted : list A) :
  Permutation sorted table ->
  ordered (fun a b => created b <=? created a) sorted ->
  newest_of created table (firstn n sorted).
Proof.
  intros Hp Hs. exists (skipn n sorted). split.
  - rewrite firstn_skipn. now apply Permutation_sym.
  - intros a b Ha Hb. apply Z.leb_le.
    exact (ordered_page _ n sorted Hs a b Ha Hb).
Qed.

(** ** Listing: bounds and order *)







(** ** The messages of a relational conversation *)

Lemma in_firstn {A : Type} (n : nat) (l : list A) (x : A) :
  In x (firstn n l) -> In x l.
Proof.
  intros H. rewrite <- (firstn_skipn n l). apply in_or_app. now left.
Qed.

Lemma filter_none {A : Type} (f : A -> bool) (l : list A) :
  (forall x, In x l -> f x = false) -> filter f l = [].
Proof.
  induction l as [|x l IH]; simpl; intros H; [reflexivity|].
  rewrite (H x (or_introl eq_refl)). apply IH. intros y Hy. apply H. now right.
Qed.

(** C6, as amended.  For an authorized request on a healthy relational
    server, and every conversation id and every [limit] from 0 to the
    largest 64-bit integer, [get_chatwoot_messages] answers 200 with a list
    under [messages] that has one dictionary per returned message, with
    the six keys id, conversation_id, sender_type, content, created_at
    and message_type and the values of that message.  The messages
    returned are messages of the table with the given conversation id,
    the newest of them, no element older than one after it, as many as
    there are up to [limit]; [limit] is 100 when the request gives none.
    When no message has the id, the list is empty and the status is
    still 200. *)
Theorem relational_messages_of_a_conversation
        (cfg : config) (conversation_id : Z) (request : Request) (w : World) :
  let limit := Werkzeug.args_get_int (args request) "limit" 100 in
  let matching :=
    filter (fun m => Pg.m_conversation_id m =? conversation_id) (Pg.messages (pg w)) in
  authorized cfg request ->
  pg_healthy w ->
  row_count limit ->
  exists page,
    fst (get_chatwoot_messages cfg conversation_id request w)
    = Return {| status := 200;
                body := Json (Py.VDict
                  [("messages",
                    Py.VList
                      (map (fun m =>
                              Py.VDict
                                [("id", Py.VInt (Pg.m_id m));
                                 ("conversation_id", Py.VInt (Pg.m_conversation_id m));
                                 ("sender_type", Pg.m_sender_type m);
                                 ("content", Pg.m_content m);
                                 ("created_at", Py.VDatetime (Pg.m_created_at m));
                                 ("message_type", Pg.m_message_type m)])
                           page))]) |}
    /\ (forall m, In m page ->
                  In m (Pg.messages (pg w)) /\ Pg.m_conversation_id m = conversation_id)
    /\ newest_of Pg.m_created_at matching page
    /\ ordered (fun a b => Pg.m_created_at b <=? Pg.m_created_at a) page
    /\ Z.of_nat (List.length page) = Z.min limit (Z.of_nat (List.length matching))
    /\ (Werkzeug.multidict_first (args request) "limit" = None -> limit = 100)
    /\ ((forall m, In m (Pg.messages (pg w)) ->
                   Pg.m_conversation_id m <> conversation_id) ->
        page = []).
Proof.
  intros limit matching Ha Hh Hl.
  rewrite (get_chatwoot_messages_ok cfg conversation_id request w Ha Hh Hl).
  fold limit matching.
  exists (firstn (Z.to_nat limit) (Pg.newest_messages_first matching)).
  split; [reflexivity|].
  assert (Permutation (Pg.newest_messages_first matching) matching) as Hperm
      by apply order_by_perm.
  split.
  { intros m Hm. apply in_firstn in Hm.
    apply (Permutation_in _ Hperm) in Hm.
    apply filter_In in Hm as [Hin Heq]. split; [exact Hin|].
    now apply Z.eqb_eq. }
  split.
  { apply firstn_newest_of; [exact Hperm | apply newest_messages_first_ordered]. }
  split.
  { apply ordered_firstn, newest_messages_first_ordered. }
  split.
  { rewrite length_firstn, (Permutation_length Hperm). destruct Hl. lia. }
  split.
  { intros Hnone. unfold limit, Werkzeug.args_get_int. now rewrite Hnone. }
  intros Hno.
  assert (matching = []) as ->.
  { apply filter_none. intros m Hm. apply Z.eqb_neq. now apply Hno. }
  now destruct (Z.to_nat limit).
Qed.

(** C6, as stated for every limit, fails at a negative one: the server
    refuses [LIMIT -1], and the view answers 500 with the text of that
    error where the claim has status 200 and a list under [messages]. *)
Lemma negative_limit_is_answered_with_500 :
  let request := sample_request ["chatwoot"; "messages"; "3"] good_key
                                [("limit", "-1")] in
  Werkzeug.args_get_int (args request) "limit" 100 = -1
  /\ (exists text,
         fst (get_chatwoot_messages default_config 3 request sample_world)
         = Return {| status := 500;
                     body := Json (Py.VDict [("error", Py.VStr text)]) |})
  /\ ~ (exists page,
           fst (get_chatwoot_messages default_config 3 request sample_world)
           = Return {| status := 200;
                       body := Json (Py.VDict [("messages", Py.VList page)]) |}).
Proof.
  split; [reflexivity|]. split.
  - eexists. vm_compute. reflexivity.
  - intros [page H]. vm_compute in H. discriminate H.
Qed.

(** ** The statements handed to the relational driver *)

Lemma executed_by_conversations (cfg : config) (request : Request) (w : World) :
  executed (new_events w (snd (get_chatwoot_conversations cfg request w)))
  = match require_api_key cfg request, Pg.connect_error (pg w) with
    | None, None =>
        [(chatwoot_conversations_sql,
          [Py.VInt (Werkzeug.args_get_int (args request) "limit" 50);
           Py.VInt (Werkzeug.args_get_int (args request) "offset" 0)])]
    | _, _ => []
    end.
Proof.
  unfold get_chatwoot_conversations.
  destruct (require_api_key cfg request) as [auth|].
  - unfold ret. simpl. now rewrite new_events_same.
  - rewrite snd_try_except. run_block. split_cases; simpl snd;
      rewrite new_events_extend; reflexivity.
Qed.

Lemma executed_by_messages (cfg : config) (conversation_id : Z)
      (request : Request) (w : World) :
  executed (new_events w (snd (get_chatwoot_messages cfg conversation_id request w)))
  = match require_api_key cfg request, Pg.connect_error (pg w) with
    | None, None =>
        [(chatwoot_messages_sql,
          [Py.VInt conversation_id;
           Py.VInt (Werkzeug.args_get_int (args request) "limit" 100)])]
    | _, _ => []
    end.
Proof.
  unfold get_chatwoot_messages.
  destruct (require_api_key cfg request) as [auth|].
  - unfold ret. simpl. now rewrite new_events_same.
  - rewrite snd_try_except. run_block. split_cases; simpl snd;
      rewrite new_events_extend; reflexivity.
Qed.

(** C7.  Whatever the requests and the worlds, every statement
    [get_chatwoot_conversations] hands to [cur.execute] has the text
    [chatwoot_conversations_sql], and every statement
    [get_chatwoot_messages] hands to it has the text
    [chatwoot_messages_sql]: two runs of a view never differ in the
    text.  The values of the caller ([limit], [offset], the conversation
    id) are in the parameter list of the call and nowhere else. *)
Theorem sql_text_does_not_depend_on_the_request
        (cfg : config) (request request' : Request) (id id' : Z) (w w' : World)
        (sql sql' : string) (params params' : list Py.value) :
  (authorized cfg request ->
   Pg.connect_error (pg w) = None ->
   executed (new_events w (snd (get_chatwoot_conversations cfg request w)))
   = [(chatwoot_conversations_sql,
       [Py.VInt (Werkzeug.args_get_int (args request) "limit" 50);
        Py.VInt (Werkzeug.args_get_int (args request) "offset" 0)])]
   /\ executed (new_events w (snd (get_chatwoot_messages cfg id request w)))
      = [(chatwoot_messages_sql,
          [Py.VInt id;
           Py.VInt (Werkzeug.args_get_int (args request) "limit" 100)])])
  /\
  (In (sql, params)
      (executed (new_events w (snd (get_chatwoot_conversations cfg request w)))) ->
   In (sql', params')
      (executed (new_events w' (snd (get_chatwoot_conversations cfg request' w')))) ->
   sql = chatwoot_conversations_sql
   /\ sql' = sql
   /\ params = [Py.VInt (Werkzeug.args_get_int (args request) "limit" 50);
                Py.VInt (Werkzeug.args_get_int (args request) "offset" 0)])
  /\
  (In (sql, params)
      (executed (new_events w (snd (get_chatwoot_messages cfg id request w)))) ->
   In (sql', params')
      (executed (new_events w' (snd (get_chatwoot_messages cfg id' request' w')))) ->
   sql = chatwoot_messages_sql
   /\ sql' = sql
   /\ params = [Py.VInt id;
                Py.VInt (Werkzeug.args_get_int (args request) "limit" 100)]).
Proof.
  split.
  { intros Ha Hc.
    rewrite executed_by_conversations, executed_by_messages.
    now rewrite (require_api_key_passes cfg request Ha), Hc. }
  split.
  - rewrite !executed_by_conversations.
    destruct (require_api_key cfg request), (Pg.connect_error (pg w));
      try contradiction.
    destruct (require_api_key cfg request'), (Pg.connect_error (pg w'));
      try contradiction.
    intros [[= <- <-]|[]] [[= <- <-]|[]]. auto.
  - rewrite !executed_by_messages.
    destruct (require_api_key cfg request), (Pg.connect_error (pg w));
      try contradiction.
    destruct (require_api_key cfg request'), (Pg.connect_error (pg w'));
      try contradiction.
    intros [[= <- <-]|[]] [[= <- <-]|[]]. auto.
Qed.

(** ** The conversation id in the path *)





(** ** The users of the document store *)




(** ** The encoding of the document views *)

Lemma found_by_conversations (cfg : config) (request : Request) (w : World) :
  found (new_events w (snd (get_librechat_conversations cfg request w)))
  = match require_api_key cfg request, Mongo.client_error (mongo w) with
    | None, None =>
        if Werkzeug.args_get_int (args request) "skip" 0 <? 0 then []
        else [conversations_query
                (Werkzeug.args_get_int (args request) "limit" 50)
                (Werkzeug.args_get_int (args request) "skip" 0)]
    | _, _ => []
    end.
Proof.
  unfold get_librechat_conversations.
  destruct (require_api_key cfg request) as [auth|].
  - unfold ret. simpl. now rewrite new_events_same.
  - rewrite snd_try_except. run_block. split_cases; simpl snd;
      rewrite new_events_extend; reflexivity.
Qed.


(** ** Query parameters that are no integers *)





(** * Instances on the sample data *)

Example int_of_str_plain : Py.int_of_str "42" = Some 42.
Proof. reflexivity. Qed.

Example int_of_str_spaces_and_sign : Py.int_of_str " -1_000 " = Some (-1000).
Proof. reflexivity. Qed.

Example int_of_str_letters : Py.int_of_str "abc" = None.
Proof. reflexivity. Qed.

Example int_of_str_empty : Py.int_of_str "" = None.
Proof. reflexivity. Qed.

Example int_of_str_double_underscore : Py.int_of_str "1__0" = None.
Proof. reflexivity. Qed.

Example isoformat_seconds : JsonUtil.isoformat 1700000000000 = "2023-11-14T22:13:20Z".
Proof. reflexivity. Qed.

Example isoformat_millis : JsonUtil.isoformat 1 = "1970-01-01T00:00:00.001Z".
Proof. reflexivity. Qed.

Example isoformat_leap_day : JsonUtil.isoformat 951782400000 = "2000-02-29T00:00:00Z".
Proof. reflexivity. Qed.

Example dumps_empty : JsonUtil.dumps [] = "[]".
Proof. reflexivity. Qed.

Example header_name_case :
  Werkzeug.headers_get [("x-api-key", "k")] "X-API-Key" = Some "k".
Proof. reflexivity. Qed.

Example missing_key_is_refused :
  require_api_key default_config
    {| headers := [("Accept", "*/*")]; args := []; path := ["librechat"; "users"] |}
  = Some {| status := 401;
            body := Json (Py.VDict [("error",
                                     Py.VStr "Unauthorized - Invalid API key")]) |}.
Proof. reflexivity. Qed.

Example route_integer_id :
  url_map_match ["chatwoot"; "messages"; "12"] = Some (ChatwootMessages 12).
Proof. reflexivity. Qed.

(** Scenario 1: [limit=2] over the five sample conversations gives the
    two created last, ids 2 and 5. *)
Example two_newest_of_five :
  fst (get_chatwoot_conversations default_config
         (sample_request ["chatwoot"; "conversations"] good_key [("limit", "2")])
         sample_world)
  = Return (jsonify (Py.VDict
              [("conversations",
                Py.VList [conversation_dict (sample_conversation 2 50);
                          conversation_dict (sample_conversation 5 40)])])).
Proof. reflexivity. Qed.

(** Scenario 4: no message of conversation 9999. *)
Example no_message_of_9999 :
  fst (get_chatwoot_messages default_config 9999
         (sample_request ["chatwoot"; "messages"; "9999"] good_key [])
         sample_world)
  = Return {| status := 200; body := Json (Py.VDict [("messages", Py.VList [])]) |}.
Proof. reflexivity. Qed.

(** Scenario 5 on the relational side. *)
Example relational_server_down :
  get_chatwoot_conversations default_config
    (sample_request ["chatwoot"; "conversations"] good_key []) pg_down_world
  = (Return {| status := 500;
               body := Json (Py.VDict [("error",
                                        Py.VStr "could not connect to server")]) |},
     extend pg_down_world [PgConnectFailed (POSTGRES_CONFIG default_config)]).
Proof. reflexivity. Qed.

Lemma unauthorized_request_witness :
  let request := sample_request ["chatwoot"; "conversations"] "wrong" [] in
  view_function default_config health_check ChatwootConversations request sample_world
  = (Return {| status := 401;
               body := Json (Py.VDict [("error",
                                        Py.VStr "Unauthorized - Invalid API key")]) |},
     sample_world)
  /\ attempts (new_events sample_world
                 (snd (view_function default_config health_check
                         ChatwootConversations request sample_world))) = 0%nat
  /\ queries (new_events sample_world
                (snd (view_function default_config health_check
                        ChatwootConversations request sample_world))) = 0%nat.
Proof.
  intros request.
  apply (unauthorized_request_is_refused_before_any_backend_call
           default_config health_check ChatwootConversations request sample_world).
  - reflexivity.
  - vm_compute. discriminate.
Defined.

Lemma backend_error_witness :
  let request := sample_request ["chatwoot"; "conversations"] good_key [] in
  exists resp delta,
    view_function default_config health_check ChatwootConversations request
                  pg_down_world
    = (Return resp, extend pg_down_world delta)
    /\ status resp = 500
    /\ body resp = Json (Py.VDict [("error", Py.VStr "could not connect to server")])
    /\ attempts delta = 1%nat
    /\ (queries delta <= 1)%nat.
Proof.
  intros request.
  destruct (backend_error_is_answered_with_500
              default_config health_check ChatwootConversations request
              pg_down_world eq_refl eq_refl)
    as (resp & delta & Hv & Hraise & Hat & Hq & _).
  exists resp, delta.
  destruct (Hraise (Exn "psycopg2.OperationalError" "could not connect to server")
                   (extend pg_down_world
                           [PgConnectFailed (POSTGRES_CONFIG default_config)])
                   eq_refl) as (Hs & Hb & _).
  repeat split; assumption.
Defined.

Lemma sample_pg_healthy : pg_healthy sample_world.
Proof. split; reflexivity. Defined.




Lemma relational_messages_witness :
  let request := sample_request ["chatwoot"; "messages"; "3"] good_key [] in
  exists page,
    fst (get_chatwoot_messages default_config 3 request sample_world)
    = Return {| status := 200;
                body := Json (Py.VDict
                  [("messages", Py.VList (map message_dict page))]) |}
    /\ Z.of_nat (List.length page) = 2
    /\ (forall m, In m page -> Pg.m_conversation_id m = 3).
Proof.
  intros request.
  assert (row_count (Werkzeug.args_get_int (args request) "limit" 100)) as R
      by (vm_compute; split; discriminate).
  destruct (relational_messages_of_a_conversation
              default_config 3 request sample_world eq_refl sample_pg_healthy R)
    as (page & E & Hin & _ & _ & Hlen & _).
  exists page. split; [exact E|]. split; [exact Hlen|].
  intros m Hm. now apply Hin.
Defined.

Lemma sql_text_witness :
  let request := sample_request ["chatwoot"; "conversations"] good_key
                                [("limit", "2")] in
  let request' := sample_request ["chatwoot"; "conversations"] good_key
                                 [("limit", "7"); ("offset", "1")] in
  let run := get_chatwoot_conversations default_config request sample_world in
  let run' := get_chatwoot_conversations default_config request' sample_world in
  executed (new_events sample_world (snd run))
  = [(chatwoot_conversations_sql, [Py.VInt 2; Py.VInt 0])]
  /\ executed (new_events sample_world (snd run'))
     = [(chatwoot_conversations_sql, [Py.VInt 7; Py.VInt 1])]
  /\ map fst (executed (new_events sample_world (snd run)))
     = map fst (executed (new_events sample_world (snd run'))).
Proof.
  intros request request' run run'.
  destruct (sql_text_does_not_depend_on_the_request
              default_config request request' 3 4 sample_world sample_world
              chatwoot_conversations_sql chatwoot_conversations_sql
              [Py.VInt 2; Py.VInt 0] [Py.VInt 7; Py.VInt 1])
    as (H1 & H2 & _).
  destruct (sql_text_does_not_depend_on_the_request
              default_config request' request 3 4 sample_world sample_world
              chatwoot_conversations_sql chatwoot_conversations_sql
              [Py.VInt 7; Py.VInt 1] [Py.VInt 2; Py.VInt 0])
    as (H1' & _).
  destruct (H1 eq_refl eq_refl) as [E1 _].
  destruct (H1' eq_refl eq_refl) as [E1' _].
  destruct (H2 (or_introl eq_refl) (or_introl eq_refl)) as (_ & _ & _).
  unfold run, run'. rewrite E1, E1'. repeat split.
Defined.




(** * Further properties *)

(** ** Decimal texts and [int] *)

Lemma digit_step (ch : ascii) (rest : string) (acc : Z) (c : nat) :
  Py.is_digit ch = true ->
  match rest with
  | EmptyString => False
  | String ch' _ => Py.is_digit ch' = true
  end ->
  Py.digits_value (String ch rest) acc c
  = Py.digits_value rest (10 * acc + Py.digit_val ch) (S c).
Proof.
  intros Hd Hr. destruct rest as [|ch' r]; [contradiction|].
  cbn [Py.digits_value]. rewrite Hd.
  destruct ch' as [[] [] [] [] [] [] [] []]; try reflexivity; discriminate Hr.
Qed.

Lemma sign_of_digits (s : string) :
  match s with
  | EmptyString => False
  | String ch _ => Py.is_digit ch = true
  end ->
  match s with
  | String "-"%char r => (true, r)
  | String "+"%char r => (false, r)
  | _ => (false, s)
  end = (false, s).
Proof.
  destruct s as [|ch r]; [contradiction|]. intros Hd.
  destruct ch as [[] [] [] [] [] [] [] []]; try reflexivity; discriminate Hd.
Qed.

Lemma rstrip_no_space (s : string) :
  Werkzeug.all_chars (fun c => negb (Py.is_space c)) s = true ->
  Py.rstrip s = s.
Proof.
  induction s as [|c s IH]; simpl; [reflexivity|].
  intros H. apply andb_true_iff in H as [Hc Hs]. rewrite (IH Hs).
  apply negb_true_iff in Hc. rewrite Hc. now destruct s.
Qed.

Lemma strip_no_space (s : string) :
  Werkzeug.all_chars (fun c => negb (Py.is_space c)) s = true ->
  Py.strip s = s.
Proof.
  intros H. unfold Py.strip.
  assert (Py.lstrip s = s) as ->.
  { destruct s as [|c s]; [reflexivity|]. simpl in *.
    apply andb_true_iff in H as [Hc _]. apply negb_true_iff in Hc.
    now rewrite Hc. }
  now apply rstrip_no_space.
Qed.

Lemma all_chars_impl (p q : ascii -> bool) (s : string) :
  (forall c, p c = true -> q c = true) ->
  Werkzeug.all_chars p s = true -> Werkzeug.all_chars q s = true.
Proof.
  intros Hpq. induction s as [|c s IH]; simpl; [reflexivity|].
  intros H. apply andb_true_iff in H as [Hc Hs].
  now rewrite (Hpq c Hc), (IH Hs).
Qed.

Lemma digit_is_no_space (c : ascii) :
  Py.is_digit c = true -> negb (Py.is_space c) = true.
Proof.
  destruct c as [[] [] [] [] [] [] [] []]; intros H; try discriminate H; reflexivity.
Qed.

(** The text of an unsigned decimal is made of digits. *)
Lemma string_of_uint_digits (d : Decimal.uint) :
  Werkzeug.all_chars Py.is_digit (NilEmpty.string_of_uint d) = true.
Proof. induction d; simpl; auto. Qed.

Lemma string_of_uint_length (d : Decimal.uint) :
  String.length (NilEmpty.string_of_uint d) = Decimal.nb_digits d.
Proof. induction d; simpl; auto. Qed.

Lemma string_of_uint_head (d : Decimal.uint) :
  d <> Decimal.Nil ->
  match NilEmpty.string_of_uint d with
  | EmptyString => False
  | String ch _ => Py.is_digit ch = true
  end.
Proof. destruct d; simpl; intros H; try reflexivity. now contradiction H. Qed.

Lemma of_uint_cons (k : positive) (l : Decimal.uint) :
  Z.pos (Pos.of_uint_acc l k)
  = Z.pos k * 10 ^ Z.of_N (DecimalPos.Unsigned.usize l) + Z.of_uint l.
Proof.
  unfold Z.of_uint. rewrite DecimalPos.Unsigned.of_uint_alt.
  change (Z.pos (Pos.of_uint_acc l k)) with (Z.of_N (N.pos (Pos.of_uint_acc l k))).
  rewrite DecimalPos.Unsigned.of_uint_acc_rev.
  rewrite N2Z.inj_add, N2Z.inj_mul, N2Z.inj_pow. simpl Z.of_N. lia.
Qed.

Lemma digit_last (ch : ascii) (acc : Z) (c : nat) :
  Py.is_digit ch = true ->
  Py.digits_value (String ch EmptyString) acc c
  = Some (10 * acc + Py.digit_val ch, S c).
Proof. intros H. cbn [Py.digits_value]. now rewrite H. Qed.

Ltac digit_consts :=
  repeat match goal with
         | |- context [Py.digit_val ?ch] =>
             let v := eval vm_compute in (Py.digit_val ch) in
             change (Py.digit_val ch) with v
         end.

(** Reading the digits of a decimal gives its value. *)
Lemma digits_value_of_uint (d : Decimal.uint) :
  forall acc c,
    d <> Decimal.Nil ->
    Py.digits_value (NilEmpty.string_of_uint d) acc c
    = Some (acc * 10 ^ Z.of_N (DecimalPos.Unsigned.usize d) + Z.of_uint d,
            (c + Decimal.nb_digits d)%nat).
Proof.
  induction d as [|l IH|l IH|l IH|l IH|l IH|l IH|l IH|l IH|l IH|l IH];
    intros acc c Hd; [now contradiction Hd|..];
    (destruct (Decimal.uint_eq_dec l Decimal.Nil) as [->|Hl];
     [ cbn [NilEmpty.string_of_uint]; rewrite digit_last by reflexivity;
       digit_consts; f_equal; f_equal; [vm_compute Z.of_uint; change (Z.of_N (Unsigned.usize _)) with 1; lia | simpl; lia]
     | cbn [NilEmpty.string_of_uint];
       rewrite digit_step; [|reflexivity|now apply string_of_uint_head];
       rewrite (IH _ _ Hl); digit_consts;
       cbn [DecimalPos.Unsigned.usize Decimal.nb_digits];
       rewrite N2Z.inj_succ, Z.pow_succ_r by apply N2Z.is_nonneg;
       f_equal; f_equal; [|lia];
       unfold Z.of_uint at 2; cbn [Pos.of_uint];
       try (match goal with |- context [Z.of_N (N.pos (Pos.of_uint_acc l ?k))] =>
              change (Z.of_N (N.pos (Pos.of_uint_acc l k)))
                with (Z.pos (Pos.of_uint_acc l k)) end);
       rewrite ?of_uint_cons; fold (Z.of_uint l); lia ]).
Qed.

Lemma int_of_str_of_uint (d : Decimal.uint) :
  d <> Decimal.Nil ->
  (Decimal.nb_digits d <= Py.max_str_digits)%nat ->
  Py.int_of_str (NilEmpty.string_of_uint d) = Some (Z.of_uint d)
  /\ Py.int_of_str (String "-" (NilEmpty.string_of_uint d)) = Some (- Z.of_uint d).
Proof.
  intros Hd Hn.
  assert (Werkzeug.all_chars (fun c => negb (Py.is_space c))
                             (NilEmpty.string_of_uint d) = true) as Hs.
  { apply (all_chars_impl Py.is_digit); [apply digit_is_no_space|].
    apply string_of_uint_digits. }
  split; unfold Py.int_of_str.
  - rewrite (strip_no_space _ Hs).
    rewrite (sign_of_digits _ (string_of_uint_head d Hd)).
    rewrite (digits_value_of_uint d 0 0 Hd). simpl Nat.add.
    apply Nat.leb_le in Hn. now rewrite Hn.
  - rewrite strip_no_space by (simpl; now rewrite Hs).
    rewrite (digits_value_of_uint d 0 0 Hd). simpl Nat.add.
    apply Nat.leb_le in Hn. now rewrite Hn.
Qed.

(** [int(str(z))] is [z], for every [z] whose text is within the limit
    of [int]. *)
Lemma int_of_str_str_of_int (z : Z) :
  (String.length (Py.str_of_int z) <= Py.max_str_digits)%nat ->
  Py.int_of_str (Py.str_of_int z) = Some z.
Proof.
  unfold Py.str_of_int. destruct z as [|p|p]; intros Hn.
  - reflexivity.
  - cbn [Z.to_int NilZero.string_of_int] in *.
    assert (Pos.to_uint p <> Decimal.Nil) as Hd
        by apply DecimalPos.Unsigned.to_uint_nonnil.
    assert (NilZero.string_of_uint (Pos.to_uint p)
            = NilEmpty.string_of_uint (Pos.to_uint p)) as E
        by (destruct (Pos.to_uint p); [now contradiction Hd|reflexivity..]).
    rewrite E in *. rewrite string_of_uint_length in Hn.
    rewrite (proj1 (int_of_str_of_uint _ Hd Hn)).
    f_equal. exact (DecimalZ.of_to (Z.pos p)).
  - cbn [Z.to_int NilZero.string_of_int] in *.
    assert (Pos.to_uint p <> Decimal.Nil) as Hd
        by apply DecimalPos.Unsigned.to_uint_nonnil.
    assert (NilZero.string_of_uint (Pos.to_uint p)
            = NilEmpty.string_of_uint (Pos.to_uint p)) as E
        by (destruct (Pos.to_uint p); [now contradiction Hd|reflexivity..]).
    rewrite E in *. cbn [String.length] in Hn.
    rewrite string_of_uint_length in Hn.
    rewrite (proj2 (int_of_str_of_uint _ Hd (Nat.le_trans _ _ _ (Nat.le_succ_diag_r _) Hn))).
    f_equal. exact (DecimalZ.of_to (Z.neg p)).
Qed.

Lemma str_of_int_digits (z : Z) :
  0 <= z ->
  Werkzeug.all_chars Py.is_digit (Py.str_of_int z) = true
  /\ Py.str_of_int z <> EmptyString.
Proof.
  unfold Py.str_of_int. destruct z as [|p|p]; intros Hz; [split; [reflexivity|discriminate]| |lia].
  cbn [Z.to_int NilZero.string_of_int].
  assert (Pos.to_uint p <> Decimal.Nil) as Hd
      by apply DecimalPos.Unsigned.to_uint_nonnil.
  assert (NilZero.string_of_uint (Pos.to_uint p)
          = NilEmpty.string_of_uint (Pos.to_uint p)) as ->
      by (destruct (Pos.to_uint p); [now contradiction Hd|reflexivity..]).
  split; [apply string_of_uint_digits|].
  destruct (Pos.to_uint p); [now contradiction Hd|discriminate..].
Qed.

Lemma digit_val_nonneg (ch : ascii) :
  Py.is_digit ch = true -> 0 <= Py.digit_val ch.
Proof.
  unfold Py.is_digit, Py.digit_val. intros H.
  apply andb_true_iff in H as [H _]. apply Nat.leb_le in H. lia.
Qed.

Lemma digits_value_nonneg (k : nat) :
  forall s acc c v n,
    (String.length s <= k)%nat ->
    0 <= acc ->
    Py.digits_value s acc c = Some (v, n) ->
    0 <= v.
Proof.
  induction k as [|k IH]; intros s acc c v n Hk Ha;
    (destruct s as [|ch rest]; [discriminate|]); simpl in Hk; [lia|].
  cbn [Py.digits_value]. destruct (Py.is_digit ch) eqn:Hd; [|discriminate].
  pose proof (digit_val_nonneg ch Hd) as Hv.
  destruct rest as [|ch' rest'].
  - intros H. assert (10 * acc + Py.digit_val ch = v) as <- by congruence. lia.
  - simpl in Hk.
    destruct ch' as [[] [] [] [] [] [] [] []]; intros H;
      (eapply IH; [| |exact H]; [simpl; lia | lia]).
Qed.

Lemma int_converter_nonneg (seg : string) (id : Z) :
  Werkzeug.int_converter seg = Some id -> 0 <= id.
Proof.
  unfold Werkzeug.int_converter.
  destruct seg as [|ch rest]; [discriminate|].
  remember (String ch rest) as s eqn:Es.
  destruct (Werkzeug.all_chars Py.is_digit s) eqn:Hd; [|discriminate].
  assert (match s with
          | EmptyString => False
          | String ch' _ => Py.is_digit ch' = true
          end) as Hh.
  { subst s. simpl in Hd. now apply andb_true_iff in Hd as [-> _]. }
  unfold Py.int_of_str.
  rewrite strip_no_space
    by (apply (all_chars_impl Py.is_digit); [apply digit_is_no_space | exact Hd]).
  rewrite (sign_of_digits s Hh).
  destruct (Py.digits_value s 0 0) as [[v n]|] eqn:E; [|discriminate].
  destruct (n <=? Py.max_str_digits)%nat; [|discriminate].
  intros [= <-]. eapply digits_value_nonneg; [reflexivity| |exact E]. lia.
Qed.

(** X1.  The rule of the relational messages route and the decimal
    text of an id are inverse to each other: the text of every id from
    0 on (within the limit [int] puts on the length of a literal) leads
    to [get_chatwoot_messages] with that id, and no path leads to it
    with a negative id. *)
Theorem relational_id_round_trip (seg : string) (id n : Z) :
  (0 <= n ->
   (String.length (Py.str_of_int n) <= Py.max_str_digits)%nat ->
   url_map_match ["chatwoot"; "messages"; Py.str_of_int n]
   = Some (ChatwootMessages n))
  /\ (url_map_match ["chatwoot"; "messages"; seg] = Some (ChatwootMessages id) ->
      0 <= id).
Proof.
  split.
  - intros Hn Hl. destruct (str_of_int_digits n Hn) as [Hd Hne].
    cbn [url_map_match]. unfold Werkzeug.int_converter.
    rewrite Hd, (int_of_str_str_of_int n Hl).
    now destruct (Py.str_of_int n).
  - cbn [url_map_match].
    destruct (Werkzeug.int_converter seg) as [id'|] eqn:E; [|discriminate].
    intros [= <-]. now apply (int_converter_nonneg seg).
Qed.

Lemma relational_id_round_trip_witness :
  url_map_match ["chatwoot"; "messages"; Py.str_of_int 9999]
  = Some (ChatwootMessages 9999)
  /\ 0 <= 42.
Proof.
  split.
  - apply (proj1 (relational_id_round_trip "42" 42 9999)).
    + lia.
    + apply Nat.leb_le. reflexivity.
  - apply (proj2 (relational_id_round_trip "42" 42 9999)). reflexivity.
Defined.

(** X2.  The numbers of the query string reach the driver as they are:
    when an authorized request gives [limit] and [offset] as the decimal
    texts of [n] and [o] and the connection opens,
    [get_chatwoot_conversations] executes its statement once, with the
    parameters [(n, o)], also when they are negative or too large for
    the server. *)
Theorem decimal_parameters_reach_the_driver
        (cfg : config) (request : Request) (n o : Z) (w : World) :
  authorized cfg request ->
  Pg.connect_error (pg w) = None ->
  Werkzeug.multidict_first (args request) "limit" = Some (Py.str_of_int n) ->
  Werkzeug.multidict_first (args request) "offset" = Some (Py.str_of_int o) ->
  (String.length (Py.str_of_int n) <= Py.max_str_digits)%nat ->
  (String.length (Py.str_of_int o) <= Py.max_str_digits)%nat ->
  executed (new_events w (snd (get_chatwoot_conversations cfg request w)))
  = [(chatwoot_conversations_sql, [Py.VInt n; Py.VInt o])].
Proof.
  intros Ha Hc Hl Ho Hn Hm.
  rewrite executed_by_conversations, (require_api_key_passes cfg request Ha), Hc.
  unfold Werkzeug.args_get_int.
  now rewrite Hl, Ho, (int_of_str_str_of_int n Hn), (int_of_str_str_of_int o Hm).
Qed.

Lemma decimal_parameters_witness :
  let request := sample_request ["chatwoot"; "conversations"] good_key
                   [("limit", Py.str_of_int 7); ("offset", Py.str_of_int (-3))] in
  executed (new_events sample_world
              (snd (get_chatwoot_conversations default_config request sample_world)))
  = [(chatwoot_conversations_sql, [Py.VInt 7; Py.VInt (-3)])].
Proof.
  intros request.
  apply (decimal_parameters_reach_the_driver default_config request 7 (-3)
                                             sample_world);
    try reflexivity; apply Nat.leb_le; reflexivity.
Defined.

(** ** What needs the key *)




(** ** Reads leave the stores as they are *)





(** ** Paging *)













(** ** The shape of a response *)

Lemma authorized_or_not (cfg : config) (request : Request) :
  authorized cfg request
  \/ Werkzeug.headers_get (headers request) "X-API-Key" <> Some (API_KEY cfg).
Proof.
  destruct (differs (Werkzeug.headers_get (headers request) "X-API-Key")
                    (API_KEY cfg)) eqn:Hd.
  - right. now apply differs_spec.
  - left. unfold authorized. destruct (Werkzeug.headers_get _ _) as [s|];
      simpl in Hd; [|discriminate].
    apply negb_false_iff, String.eqb_eq in Hd. now subst.
Qed.

(** X9.  A protected view answers in one of three shapes, and the
    status tells which: 200 with a dictionary whose one key is the name
    of the resource, 401 with the fixed text under [error], or 500 with
    a text under [error].  It sends no other status and no body that is
    not such a dictionary. *)
Theorem protected_response_has_one_of_three_shapes
        (cfg : config) (docs : Request -> M Response) (e : endpoint)
        (request : Request) (w : World) :
  protected e = true ->
  exists r,
    fst (view_function cfg docs e request w) = Return r
    /\ ((status r = 200
         /\ exists key v, resource e = Some key /\ body r = Json (Py.VDict [(key, v)]))
        \/ (status r = 401
            /\ body r = Json (Py.VDict [("error",
                                         Py.VStr "Unauthorized - Invalid API key")]))
        \/ (status r = 500
            /\ exists text, body r = Json (Py.VDict [("error", Py.VStr text)]))).
Proof.
  intros Hp. destruct (authorized_or_not cfg request) as [Ha|Hk].
  - rewrite (view_function_guarded cfg docs e request Hp Ha), fst_try_except.
    destruct e; try discriminate Hp; simpl try_block; run_block; split_cases;
      cbn [fst]; eexists; (split; [reflexivity|]);
      solve [ left; split; [reflexivity|]; do 2 eexists; split; reflexivity
            | right; right; split; [reflexivity|]; eexists; reflexivity ].
  - rewrite (proj1 (unauthorized_gate_lemma cfg docs e request w Hp Hk)).
    eexists. split; [reflexivity|]. right. left. split; reflexivity.
Qed.

Lemma protected_response_witness :
  exists r,
    fst (view_function default_config health_check (LibrechatMessages "c-1")
                       (sample_request ["librechat"; "messages"; "c-1"] good_key [])
                       messages_world)
    = Return r
    /\ ((status r = 200
         /\ exists key v,
             resource (LibrechatMessages "c-1") = Some key
             /\ body r = Json (Py.VDict [(key, v)]))
        \/ (status r = 401
            /\ body r = Json (Py.VDict [("error",
                                         Py.VStr "Unauthorized - Invalid API key")]))
        \/ (status r = 500
            /\ exists text, body r = Json (Py.VDict [("error", Py.VStr text)]))).
Proof.
  apply (protected_response_has_one_of_three_shapes
           default_config health_check (LibrechatMessages "c-1")
           (sample_request ["librechat"; "messages"; "c-1"] good_key [])
           messages_world).
  reflexivity.
Defined.

(** ** Connections left open, queries not sent *)

(** X10.  A protected view leaves at most one connection or client
    open, the one it made, and only when it answers 500: after a 200 or
    a 401, everything the view opened is closed. *)
Theorem only_a_failed_call_leaves_a_connection_open
        (cfg : config) (docs : Request -> M Response) (e : endpoint)
        (request : Request) (w : World) :
  protected e = true ->
  exists r,
    fst (view_function cfg docs e request w) = Return r
    /\ (left_open (new_events w (snd (view_function cfg docs e request w))) = []
        \/ (status r = 500
            /\ left_open (new_events w (snd (view_function cfg docs e request w)))
               = [List.length (log w)])).
Proof.
  intros Hp. destruct (authorized_or_not cfg request) as [Ha|Hk].
  - rewrite (view_function_guarded cfg docs e request Hp Ha),
      fst_try_except, snd_try_except.
    destruct e; try discriminate Hp; simpl try_block; run_block; split_cases;
      cbn [fst snd]; eexists; (split; [reflexivity|]);
      rewrite new_events_extend; simpl left_open; rewrite ?Nat.eqb_refl;
      simpl; auto.
  - destruct (unauthorized_gate_lemma cfg docs e request w Hp Hk) as [E N].
    rewrite N. rewrite E. eexists. split; [reflexivity|]. now left.
Qed.

Lemma only_a_failed_call_witness :
  exists r,
    fst (view_function default_config health_check ChatwootConversations
                       (sample_request ["chatwoot"; "conversations"] good_key [])
                       pg_failing_world)
    = Return r
    /\ (left_open
          (new_events pg_failing_world
             (snd (view_function default_config health_check ChatwootConversations
                     (sample_request ["chatwoot"; "conversations"] good_key [])
                     pg_failing_world))) = []
        \/ (status r = 500
            /\ left_open
                 (new_events pg_failing_world
                    (snd (view_function default_config health_check
                            ChatwootConversations
                            (sample_request ["chatwoot"; "conversations"] good_key [])
                            pg_failing_world)))
               = [List.length (log pg_failing_world)])).
Proof.
  apply (only_a_failed_call_leaves_a_connection_open
           default_config health_check ChatwootConversations
           (sample_request ["chatwoot"; "conversations"] good_key [])
           pg_failing_world).
  reflexivity.
Defined.



(** X12.  A view talks to its own backend only, at the configured
    address: every event of a relational view is an event of the
    relational driver, and every connection it asks for is asked with
    [POSTGRES_CONFIG]; every event of a document view is an event of the
    document driver, every client is made with the URI
    [get_mongo_client] builds, and every query goes to the configured
    database. *)
Theorem views_reach_only_their_backend
        (cfg : config) (docs : Request -> M Response) (e : endpoint)
        (request : Request) (w : World) (ev : event) :
  protected e = true ->
  In ev (new_events w (snd (view_function cfg docs e request w))) ->
  if relational e then pg_event_of cfg ev else mongo_event_of cfg ev.
Proof.
  intros Hp. destruct (authorized_or_not cfg request) as [Ha|Hk].
  - rewrite (view_function_guarded cfg docs e request Hp Ha), snd_try_except.
    destruct e; try discriminate Hp; simpl try_block; run_block; split_cases;
      cbn [snd]; rewrite new_events_extend; cbn [relational In];
      intros H;
      repeat (destruct H as [<-|H]; [simpl; auto|]); contradiction.
  - rewrite (proj2 (unauthorized_gate_lemma cfg docs e request w Hp Hk)).
    contradiction.
Qed.

Lemma views_reach_only_their_backend_witness :
  mongo_event_of default_config
    (MongoFind 0 "LibreChat" users_query).
Proof.
  apply (views_reach_only_their_backend
           default_config health_check LibrechatUsers
           (sample_request ["librechat"; "users"] good_key []) sample_world
           (MongoFind 0 "LibreChat" users_query) eq_refl).
  vm_compute. right. left. reflexivity.
Defined.

(** ** The messages of a document conversation *)






(** ** Columns no statement selects *)

Section SameRows.

Context {A : Type}.
Variable same : A -> A -> Prop.

Lemma Forall2_insert_by (before : A -> A -> bool) (x y : A) (l l' : list A) :
  (forall a a' b b', same a a' -> same b b' -> before a b = before a' b') ->
  same x y ->
  Forall2 same l l' ->
  Forall2 same (insert_by before x l) (insert_by before y l').
Proof.
  intros Hb Hxy H. induction H as [|a a' l l' Ha Hl IH]; simpl.
  - now repeat constructor.
  - rewrite (Hb x y a a' Hxy Ha). destruct (before y a').
    + now repeat constructor.
    + now constructor.
Qed.

Lemma Forall2_order_by (before : A -> A -> bool) (l l' : list A) :
  (forall a a' b b', same a a' -> same b b' -> before a b = before a' b') ->
  Forall2 same l l' ->
  Forall2 same (order_by before l) (order_by before l').
Proof.
  intros Hb H. induction H as [|a a' l l' Ha Hl IH]; simpl.
  - constructor.
  - now apply Forall2_insert_by.
Qed.

Lemma Forall2_filter (f : A -> bool) (l l' : list A) :
  (forall a a', same a a' -> f a = f a') ->
  Forall2 same l l' ->
  Forall2 same (filter f l) (filter f l').
Proof.
  intros Hf H. induction H as [|a a' l l' Ha Hl IH]; simpl.
  - constructor.
  - rewrite (Hf a a' Ha). destruct (f a'); [now constructor | exact IH].
Qed.

Lemma Forall2_firstn (n : nat) (l l' : list A) :
  Forall2 same l l' -> Forall2 same (firstn n l) (firstn n l').
Proof.
  intros H. revert n. induction H as [|a a' l l' Ha Hl IH]; intros [|n]; simpl;
    try constructor; auto.
Qed.

Lemma Forall2_skipn (n : nat) (l l' : list A) :
  Forall2 same l l' -> Forall2 same (skipn n l) (skipn n l').
Proof.
  intros H. revert n. induction H as [|a a' l l' Ha Hl IH]; intros [|n]; simpl;
    try constructor; auto.
Qed.

End SameRows.

Lemma Forall2_map_eq {A B : Type} (f : A -> B) (l l' : list A) :
  Forall2 (fun a a' => f a = f a') l l' -> map f l = map f l'.
Proof. induction 1; simpl; congruence. Qed.

Lemma pg_run_same (s s' : Pg.server) (st : Pg.statement) (params : list Py.value) :
  same_selected_columns s s' -> Pg.run s st params = Pg.run s' st params.
Proof.
  intros (_ & Hq & Hc & Hm). unfold Pg.run. rewrite Hq.
  destruct (Pg.query_error s'); [reflexivity|].
  destruct st; repeat (match goal with
                       | |- context [match ?x with _ => _ end] =>
                           is_var x; destruct x
                       end; try reflexivity).
  - destruct (Pg.check_count "LIMIT" z), (Pg.check_count "OFFSET" z0);
      try reflexivity.
    do 2 f_equal. apply Forall2_map_eq.
    apply Forall2_firstn, Forall2_skipn.
    apply Forall2_order_by; [|exact Hc].
    intros a a' b b' [= _ _ _ _ Ha _] [= _ _ _ _ Hb _]. now rewrite Ha, Hb.
  - destruct (Pg.check_count "LIMIT" z0); try reflexivity.
    do 2 f_equal. apply Forall2_map_eq.
    apply Forall2_firstn.
    apply Forall2_order_by.
    + intros a a' b b' [= _ _ _ _ Ha _] [= _ _ _ _ Hb _]. now rewrite Ha, Hb.
    + apply Forall2_filter; [|exact Hm].
      intros a a' [= _ Ha _]. now rewrite Ha.
Qed.

(** X14.  The columns no statement selects never show: two relational
    servers that hold, row by row, the same values in the selected
    columns get the same response from a relational view, whatever the
    other columns hold. *)
Theorem unselected_columns_do_not_show
        (cfg : config) (docs : Request -> M Response) (e : endpoint)
        (request : Request) (w w' : World) :
  relational e = true ->
  same_selected_columns (pg w) (pg w') ->
  fst (view_function cfg docs e request w)
  = fst (view_function cfg docs e request w').
Proof.
  intros Hr Hs.
  assert (protected e = true) as Hp by (destruct e; try discriminate Hr; reflexivity).
  destruct (authorized_or_not cfg request) as [Ha|Hk].
  - rewrite (view_function_guarded cfg docs e request Hp Ha), !fst_try_except.
    destruct e; try discriminate Hr; simpl try_block; repeat run_block;
      rewrite (pg_run_same _ _ _ _ Hs); destruct Hs as (-> & _);
      split_cases; reflexivity.
  - now rewrite !(proj1 (unauthorized_gate_lemma cfg docs e request _ Hp Hk)).
Qed.

Lemma unselected_columns_witness :
  let request := sample_request ["chatwoot"; "messages"; "3"] good_key [] in
  fst (view_function default_config health_check (ChatwootMessages 3) request
                     sample_world)
  = fst (view_function default_config health_check (ChatwootMessages 3) request
                       {| pg := sample_pg_other_rest; mongo := sample_mongo;
                          log := [] |}).
Proof.
  intros request.
  apply (unselected_columns_do_not_show
           default_config health_check (ChatwootMessages 3) request sample_world
           {| pg := sample_pg_other_rest; mongo := sample_mongo; log := [] |}).
  - reflexivity.
  - repeat split; simpl; repeat constructor.
Defined.

(** ** The configuration *)


Lemma getenv_set (environ : list (string * string)) (name default v : string) :
  environ_get environ name = Some v -> getenv environ name default = v.
Proof. unfold getenv. now intros ->. Qed.



(** X16.  The key that opens the protected routes is the value of
    [BRIDGE_API_KEY], and the fixed default when the variable is not
    set: a request that carries that text in [X-API-Key] passes
    [require_api_key], and a request that carries any other text, or no
    such header, is refused. *)
Theorem the_configured_key_opens_the_gate
        (environ : list (string * string)) (cfg : config) (request : Request) :
  load_config environ = Some cfg ->
  let key := match environ_get environ "BRIDGE_API_KEY" with
             | Some v => v
             | None => "deepnote-api-key-change-me"
             end in
  (Werkzeug.headers_get (headers request) "X-API-Key" = Some key ->
   require_api_key cfg request = None)
  /\ (Werkzeug.headers_get (headers request) "X-API-Key" <> Some key ->
      require_api_key cfg request
      = Some {| status := 401;
                body := Json (Py.VDict [("error",
                                         Py.VStr "Unauthorized - Invalid API key")]) |}).
Proof.
  unfold load_config. destruct (Py.int_of_str _); [|discriminate].
  intros [= <-]. split; intros Hh.
  - apply require_api_key_passes. unfold authorized.
    cbn [API_KEY]. unfold getenv. exact Hh.
  - apply require_api_key_refuses. cbn [API_KEY]. unfold getenv. exact Hh.
Qed.

Lemma the_configured_key_witness :
  require_api_key default_config
    (sample_request ["librechat"; "users"] "deepnote-api-key-change-me" [])
  = None
  /\ require_api_key default_config (sample_request ["librechat"; "users"] "" [])
     = Some {| status := 401;
               body := Json (Py.VDict [("error",
                                        Py.VStr "Unauthorized - Invalid API key")]) |}.
Proof.
  split.
  - apply (proj1 (the_configured_key_opens_the_gate
                    [("PATH", "/usr/bin")] default_config
                    (sample_request ["librechat"; "users"]
                                    "deepnote-api-key-change-me" [])
                    eq_refl)).
    reflexivity.
  - apply (proj2 (the_configured_key_opens_the_gate
                    [("PATH", "/usr/bin")] default_config
                    (sample_request ["librechat"; "users"] "" [])
                    eq_refl)).
    vm_compute. discriminate.
Defined.

(** X17.  The client of the document views is authenticated only when
    both the user name and the password are configured: when either is
    empty, every document view makes its client with the URI of host,
    port and database alone, and the other of the two is not used; when
    both are set, the URI carries them and names [admin] as the source
    of authentication. *)
Theorem credentials_need_both_parts
        (cfg : config) (docs : Request -> M Response) (e : endpoint) (key : string)
        (request : Request) (w : World) :
  document_backed e = Some key ->
  authorized cfg request ->
  Mongo.client_error (mongo w) = None ->
  let c := MONGO_CONFIG cfg in
  let plain := "mongodb://" ++ mongo_host c ++ ":" ++ Py.str_of_int (mongo_port c)
               ++ "/" ++ mongo_database c in
  exists rest,
    new_events w (snd (view_function cfg docs e request w))
    = MongoClient (List.length (log w))
        (if Py.truthy (mongo_username c) && Py.truthy (mongo_password c)
         then "mongodb://" ++ mongo_username c ++ ":" ++ mongo_password c ++ "@"
              ++ mongo_host c ++ ":" ++ Py.str_of_int (mongo_port c) ++ "/"
              ++ mongo_database c ++ "?authSource=admin"
         else plain)
      :: rest
    /\ (mongo_username c = "" \/ mongo_password c = "" ->
        new_events w (snd (view_function cfg docs e request w))
        = MongoClient (List.length (log w)) plain :: rest).
Proof.
  intros Hk Ha Hc c plain.
  assert (protected e = true) as Hp by (destruct e; try discriminate Hk; reflexivity).
  assert (mongo_username c = "" \/ mongo_password c = "" ->
          client_uri cfg = plain) as Hplain.
  { unfold client_uri. fold c. intros [-> | ->]; simpl;
      [reflexivity | now rewrite andb_false_r]. }
  rewrite (view_function_guarded cfg docs e request Hp Ha), snd_try_except.
  destruct e; try discriminate Hk; simpl try_block; run_block; rewrite Hc;
    split_cases; cbn [snd]; rewrite new_events_extend;
    eexists; (split; [reflexivity|]); intros H; now rewrite (Hplain H).
Qed.

Lemma credentials_witness :
  let cfg := {| POSTGRES_CONFIG := POSTGRES_CONFIG default_config;
                MONGO_CONFIG := {| mongo_host := "mongo"; mongo_port := 27017;
                                   mongo_database := "LibreChat";
                                   mongo_username := "";
                                   mongo_password := "secret" |};
                API_KEY := good_key |} in
  exists rest,
    new_events sample_world
      (snd (view_function cfg health_check LibrechatUsers
              (sample_request ["librechat"; "users"] good_key []) sample_world))
    = MongoClient 0 "mongodb://mongo:27017/LibreChat" :: rest.
Proof.
  intros cfg.
  destruct (credentials_need_both_parts
              cfg health_check LibrechatUsers "users"
              (sample_request ["librechat"; "users"] good_key []) sample_world
              eq_refl eq_refl eq_refl) as (rest & _ & H).
  exists rest. apply H. left. reflexivity.
Defined.

(** ** Counts the relational server refuses *)

Lemma check_count_refuses (clause : string) (n : Z) :
  n < 0 \/ INT64_MAX < n ->
  exists e, Pg.check_count clause n = Some e.
Proof.
  unfold Pg.check_count. intros [H|H].
  - apply Z.ltb_lt in H. rewrite H. eauto.
  - destruct (n <? 0); [eauto|]. apply Z.ltb_lt in H. rewrite H. eauto.
Qed.

(** X18.  A [limit] or an [offset] that is negative or above the
    largest 64-bit integer is not checked by the relational views: the
    statement is sent with it, the server refuses it, and the view
    answers 500 with the text of the server under [error], leaving the
    connection it opened open. *)
Theorem refused_count_is_answered_with_500
        (cfg : config) (conversation_id : Z) (request : Request) (w : World) :
  authorized cfg request ->
  pg_healthy w ->
  ((Werkzeug.args_get_int (args request) "limit" 50 < 0
    \/ INT64_MAX < Werkzeug.args_get_int (args request) "limit" 50
    \/ Werkzeug.args_get_int (args request) "offset" 0 < 0
    \/ INT64_MAX < Werkzeug.args_get_int (args request) "offset" 0) ->
   let run := get_chatwoot_conversations cfg request w in
   (exists text,
       fst run = Return {| status := 500;
                           body := Json (Py.VDict [("error", Py.VStr text)]) |})
   /\ executed (new_events w (snd run))
      = [(chatwoot_conversations_sql,
          [Py.VInt (Werkzeug.args_get_int (args request) "limit" 50);
           Py.VInt (Werkzeug.args_get_int (args request) "offset" 0)])]
   /\ left_open (new_events w (snd run)) = [List.length (log w)])
  /\
  ((Werkzeug.args_get_int (args request) "limit" 100 < 0
    \/ INT64_MAX < Werkzeug.args_get_int (args request) "limit" 100) ->
   let run := get_chatwoot_messages cfg conversation_id request w in
   (exists text,
       fst run = Return {| status := 500;
                           body := Json (Py.VDict [("error", Py.VStr text)]) |})
   /\ executed (new_events w (snd run))
      = [(chatwoot_messages_sql,
          [Py.VInt conversation_id;
           Py.VInt (Werkzeug.args_get_int (args request) "limit" 100)])]
   /\ left_open (new_events w (snd run)) = [List.length (log w)]).
Proof.
  intros Ha [Hc Hq]. split.
  - intros Hbad run. unfold run, get_chatwoot_conversations.
    rewrite (require_api_key_passes cfg request Ha). unfold try_except.
    run_block. rewrite Hc. unfold Pg.run. rewrite Hq.
    destruct (Pg.check_count "LIMIT" _) as [e1|] eqn:E1;
      [|destruct (Pg.check_count "OFFSET" _) as [e2|] eqn:E2].
    + cbn [fst snd ret]. rewrite new_events_extend.
      split; [eexists; reflexivity|]. split; reflexivity.
    + cbn [fst snd ret]. rewrite new_events_extend.
      split; [eexists; reflexivity|]. split; reflexivity.
    + exfalso. destruct Hbad as [H|[H|[H|H]]].
      * destruct (check_count_refuses "LIMIT" _ (or_introl H)) as [e He].
        congruence.
      * destruct (check_count_refuses "LIMIT" _ (or_intror H)) as [e He].
        congruence.
      * destruct (check_count_refuses "OFFSET" _ (or_introl H)) as [e He].
        congruence.
      * destruct (check_count_refuses "OFFSET" _ (or_intror H)) as [e He].
        congruence.
  - intros Hbad run. unfold run, get_chatwoot_messages.
    rewrite (require_api_key_passes cfg request Ha). unfold try_except.
    run_block. rewrite Hc. unfold Pg.run. rewrite Hq.
    destruct (check_count_refuses "LIMIT" _ Hbad) as [e ->].
    cbn [fst snd ret]. rewrite new_events_extend.
    split; [eexists; reflexivity|]. split; reflexivity.
Qed.

Lemma refused_count_witness :
  let request := sample_request ["chatwoot"; "conversations"] good_key
                                [("offset", "-4")] in
  let run := get_chatwoot_conversations default_config request sample_world in
  (exists text,
      fst run = Return {| status := 500;
                          body := Json (Py.VDict [("error", Py.VStr text)]) |})
  /\ executed (new_events sample_world (snd run))
     = [(chatwoot_conversations_sql, [Py.VInt 50; Py.VInt (-4)])]
  /\ left_open (new_events sample_world (snd run)) = [0%nat].
Proof.
  intros request run.
  apply (proj1 (refused_count_is_answered_with_500
                  default_config 3 request sample_world eq_refl sample_pg_healthy)).
  right. right. left. vm_compute. reflexivity.
Defined.

(** ** What a view reads *)

(** X19.  A protected view reads one table or one collection and
    nothing else: in two worlds whose servers fail alike and hold the
    same rows in the table of the view (the same documents in its
    collection), the view gives the same response, whatever the other
    tables, the other collections and the other server hold. *)
Theorem view_reads_only_its_own_table
        (cfg : config) (docs : Request -> M Response) (e : endpoint)
        (request : Request) (w w' : World) :
  protected e = true ->
  same_footprint e w w' ->
  fst (view_function cfg docs e request w)
  = fst (view_function cfg docs e request w').
Proof.
  intros Hp Hs. destruct (authorized_or_not cfg request) as [Ha|Hk].
  - rewrite (view_function_guarded cfg docs e request Hp Ha), !fst_try_except.
    destruct e; try discriminate Hp; simpl try_block; repeat run_block;
      destruct Hs as (Hc & Hq & Ht);
      unfold Pg.run, Mongo.run;
      cbn [Mongo.c_collection conversations_query messages_query users_query];
      rewrite Hc, Hq, Ht; cbv beta iota;
      repeat match goal with
             | |- context [match Pg.connect_error ?s with _ => _ end] =>
                 destruct (Pg.connect_error s)
             | |- context [match Pg.query_error ?s with _ => _ end] =>
                 destruct (Pg.query_error s)
             | |- context [match Mongo.client_error ?s with _ => _ end] =>
                 destruct (Mongo.client_error s)
             | |- context [match Mongo.command_error ?s with _ => _ end] =>
                 destruct (Mongo.command_error s)
             | |- context [match Pg.check_count ?c ?n with _ => _ end] =>
                 destruct (Pg.check_count c n)
             | |- context [if ?n <? 0 then _ else _] => destruct (n <? 0)
             | |- context [if (?a || ?b)%bool then _ else _] => destruct (a || b)%bool
             end; reflexivity.
  - now rewrite !(proj1 (unauthorized_gate_lemma cfg docs e request _ Hp Hk)).
Qed.

Lemma view_reads_only_its_own_table_witness :
  let request := sample_request ["librechat"; "users"] good_key [] in
  fst (view_function default_config health_check LibrechatUsers request sample_world)
  = fst (view_function default_config health_check LibrechatUsers request
                       messages_world).
Proof.
  intros request.
  apply (view_reads_only_its_own_table
           default_config health_check LibrechatUsers request sample_world
           messages_world eq_refl).
  repeat split.
Defined.
